(** * Address derivation of [python-verify.py], embedded in Rocq

    The script derives single-signature and multi-signature Bitcoin
    addresses from extended public keys.  All cryptography (Base58Check,
    BIP32 child derivation, hashing, address encoders) is delegated to the
    [bip_utils] and [hashlib] libraries; the script itself slices prefixes,
    rewrites version bytes, formats the derivation path, sorts the derived
    keys, assembles the redeem script and dispatches on the script type.

    The embedding follows that split: the libraries form an interface
    ([BipUtils]), the two functions of the script are written over it in an
    exception monad, and every statement is proved for all implementations
    of the interface. *)

From Stdlib Require Import List String Ascii ZArith NArith Lia Bool.
From Stdlib Require Import Strings.Byte Sorting.Permutation Sorting.Sorted.
From Stdlib Require Import DecimalString DecimalPos DecimalZ.
Import ListNotations.

Local Open Scope string_scope.
Local Open Scope Z_scope.
Local Open Scope list_scope.

(** ** Python values *)

(** A Python [bytes] object: a sequence of integers in [range(256)]. *)
Definition bytes := list byte.

(** A raised exception: its class and its message. *)
Inductive exn : Type :=
| PyExc (cls : string) (msg : string).

Definition ValueError (msg : string) : exn := PyExc "ValueError" msg.

(** The outcome of a call: a returned value or a raised exception. *)
Inductive result (A : Type) : Type :=
| Return (a : A)
| Raise (e : exn).
Arguments Return {A} a.
Arguments Raise {A} e.

Definition bind {A B : Type} (m : result A) (k : A -> result B) : result B :=
  match m with
  | Return a => k a
  | Raise e => Raise e
  end.

Notation "x <- m ;; k" := (bind m (fun x => k))
  (at level 61, m at next level, right associativity).
Notation "m ;;; k" := (bind m (fun _ => k))
  (at level 61, right associativity).

(** [bytes([n])]: a one-byte object, [ValueError] outside [range(256)]. *)
Definition bytes_of_int (n : Z) : result bytes :=
  if (n <? 0) || (255 <? n) then
    Raise (ValueError "bytes must be in range(0, 256)")
  else
    match Byte.of_N (Z.to_N n) with
    | Some b => Return [b]
    | None => Raise (ValueError "bytes must be in range(0, 256)")
    end.

(** [len(x)] as a Python integer. *)
Definition len {A : Type} (l : list A) : Z := Z.of_nat (List.length l).

(** [str(n)] for an integer, as used by the f-string of the path. *)
Definition str_of_int (n : Z) : string := NilZero.string_of_int (Z.to_int n).

(** [s in [a, b, ...]] on strings. *)
Definition str_in (s : string) (l : list string) : bool :=
  existsb (String.eqb s) l.

(** The integer value of a byte, and of a byte string. *)
Definition byte_val (b : byte) : Z := Z.of_N (Byte.to_N b).
Definition bytes_val (bs : bytes) : list Z := map byte_val bs.

(** *** Comparison of [bytes], as [list.sort] uses it

    Python orders [bytes] lexicographically by unsigned byte value, a
    proper prefix being smaller. *)
Fixpoint bytes_ltb (a b : bytes) : bool :=
  match a, b with
  | _, [] => false
  | [], _ :: _ => true
  | x :: a', y :: b' =>
      if (Byte.to_N x <? Byte.to_N y)%N then true
      else if (Byte.to_N y <? Byte.to_N x)%N then false
      else bytes_ltb a' b'
  end.

(** [a <= b] on [bytes]: [b] is not smaller than [a]. *)
Definition bytes_le (a b : bytes) : Prop := bytes_ltb b a = false.

(** [pub_keys.sort()]: a stable sort that compares with [<].  Written as
    the insertion of each element behind the elements that are not greater. *)
Fixpoint insert_sorted (k : bytes) (l : list bytes) : list bytes :=
  match l with
  | [] => [k]
  | h :: t => if bytes_ltb k h then k :: h :: t else h :: insert_sorted k t
  end.

Definition list_sort (l : list bytes) : list bytes :=
  fold_left (fun acc k => insert_sorted k acc) l [].

(** ** The libraries the script calls *)

Inductive CoinsConf : Type :=
| BitcoinMainNet
| BitcoinTestNet.

(** The third argument of [P2SHAddr.EncodeKey]: the positional
    [P2SHAddr.P2WPKH] or the keyword [net_ver=...]. *)
Inductive P2SHArg : Type :=
| P2SH_P2WPKH
| P2SH_net_ver (v : bytes).

Class BipUtils : Type := {
  Bip32Ctx : Type;
  Base58Decoder_CheckDecode : string -> result bytes;
  Base58Encoder_CheckEncode : bytes -> result string;
  Bip32Secp256k1_FromExtendedKey : string -> result Bip32Ctx;
  DerivePath : Bip32Ctx -> string -> result Bip32Ctx;
  (* [ctx.PublicKey().RawCompressed().ToBytes()] *)
  PublicKey_RawCompressed : Bip32Ctx -> bytes;
  P2PKHAddr_EncodeKey : bytes -> CoinsConf -> result string;
  P2SHAddr_EncodeKey : bytes -> CoinsConf -> P2SHArg -> result string;
  P2WPKHAddr_EncodeKey : bytes -> CoinsConf -> result string;
  P2TRAddr_EncodeKey : bytes -> CoinsConf -> result string;
  P2WSHAddr_EncodeKey : bytes -> CoinsConf -> result string;
  (* [hashlib.sha256(b).digest()] *)
  hashlib_sha256 : bytes -> bytes;
  (* [hashlib.new('ripemd160', b).digest()]; the constructor raises where
     the digest is not available *)
  hashlib_ripemd160 : bytes -> result bytes
}.

(** ** The script *)

Definition MAINNET_VERSION : bytes := [x04; x88; xb2; x1e].
Definition TESTNET_VERSION : bytes := [x04; x35; x87; xcf].

Section Script.
Context {lib : BipUtils}.

(** Lines 66-74 and 133-140: the conversion to the standard xpub format,
    written twice in the script with the same text. *)
Definition convert_xpub (xpub : string) (is_mainnet : bool) : result string :=
  let prefix := substring 0 4 xpub in
  if negb (str_in prefix ["xpub"; "tpub"]) then
    decoded <- Base58Decoder_CheckDecode xpub ;;
    let new_version := if is_mainnet then MAINNET_VERSION else TESTNET_VERSION in
    let converted := new_version ++ skipn 4 decoded in
    Base58Encoder_CheckEncode converted
  else
    Return xpub.

(** Lines 77-82 and 142-144: parse, derive [change/index], take the
    compressed public key. *)
Definition derive_pub_key (xpub : string) (change : bool) (index : Z)
  : result bytes :=
  bip32_ctx <- Bip32Secp256k1_FromExtendedKey xpub ;;
  let change_idx := if change then 1 else 0 in
  derived <- DerivePath bip32_ctx (str_of_int change_idx ++ "/" ++ str_of_int index)%string ;;
  Return (PublicKey_RawCompressed derived).

(** Lines 62-63: the network of a single-sig call, read off the prefix. *)
Definition xpub_is_mainnet (xpub : string) : bool :=
  let prefix := substring 0 4 xpub in
  str_in prefix ["xpub"; "ypub"; "zpub"; "Ypub"; "Zpub"].

(** Lines 84-116: the dispatch on the script type. *)
Definition encode_single_sig (pub_key : bytes) (script_type : string)
  (is_mainnet : bool) : result string :=
  if (script_type =? "legacy")%string then
    if is_mainnet then P2PKHAddr_EncodeKey pub_key BitcoinMainNet
    else P2PKHAddr_EncodeKey pub_key BitcoinTestNet
  else if (script_type =? "nested_segwit")%string then
    if is_mainnet then
      P2WPKHAddr_EncodeKey pub_key BitcoinMainNet ;;;
      P2SHAddr_EncodeKey pub_key BitcoinMainNet P2SH_P2WPKH
    else P2SHAddr_EncodeKey pub_key BitcoinTestNet P2SH_P2WPKH
  else if (script_type =? "native_segwit")%string then
    if is_mainnet then P2WPKHAddr_EncodeKey pub_key BitcoinMainNet
    else P2WPKHAddr_EncodeKey pub_key BitcoinTestNet
  else if (script_type =? "taproot")%string then
    let x_only_pub := firstn 32 (skipn 1 pub_key) in
    if is_mainnet then P2TRAddr_EncodeKey x_only_pub BitcoinMainNet
    else P2TRAddr_EncodeKey x_only_pub BitcoinTestNet
  else
    Raise (ValueError ("Unknown script type: " ++ script_type)%string).

Definition derive_single_sig_bip_utils
  (xpub : string) (index : Z) (script_type : string) (change : bool)
  (network : string) : result string :=
  let is_mainnet := xpub_is_mainnet xpub in
  xpub <- convert_xpub xpub is_mainnet ;;
  pub_key <- derive_pub_key xpub change index ;;
  encode_single_sig pub_key script_type is_mainnet.

(** Lines 129-145: the loop that fills [pub_keys]. *)
Fixpoint derive_pub_keys (xpubs : list string) (is_mainnet change : bool)
  (index : Z) (pub_keys : list bytes) : result (list bytes) :=
  match xpubs with
  | [] => Return pub_keys
  | xpub :: rest =>
      xpub <- convert_xpub xpub is_mainnet ;;
      pub_key <- derive_pub_key xpub change index ;;
      derive_pub_keys rest is_mainnet change index (pub_keys ++ [pub_key])
  end.

(** Lines 153-154: the loop that appends [len(pk) || pk] for each key. *)
Fixpoint push_keys (redeem_script : bytes) (pub_keys : list bytes)
  : result bytes :=
  match pub_keys with
  | [] => Return redeem_script
  | pk :: rest =>
      l <- bytes_of_int (len pk) ;;
      push_keys (redeem_script ++ (l ++ pk)) rest
  end.

(** Lines 152-156: the redeem script from the threshold and the sorted
    keys. *)
Definition build_redeem_script (threshold : Z) (pub_keys : list bytes)
  : result bytes :=
  redeem_script <- bytes_of_int (0x50 + threshold) ;;
  redeem_script <- push_keys redeem_script pub_keys ;;
  op_n <- bytes_of_int (0x50 + len pub_keys) ;;
  let redeem_script := redeem_script ++ op_n in
  Return (redeem_script ++ [xae]).

(** Lines 158-188: hashing and the dispatch on the script type. *)
Definition encode_multisig (redeem_script : bytes) (script_type : string)
  (is_mainnet : bool) : result string :=
  let script_hash := hashlib_sha256 redeem_script in
  script_hash_160 <- hashlib_ripemd160 script_hash ;;
  if (script_type =? "p2sh")%string then
    if is_mainnet then
      P2SHAddr_EncodeKey script_hash_160 BitcoinMainNet (P2SH_net_ver [x05])
    else
      P2SHAddr_EncodeKey script_hash_160 BitcoinTestNet (P2SH_net_ver [xc4])
  else if (script_type =? "p2wsh")%string then
    if is_mainnet then P2WSHAddr_EncodeKey script_hash BitcoinMainNet
    else P2WSHAddr_EncodeKey script_hash BitcoinTestNet
  else if (script_type =? "p2sh_p2wsh")%string then
    let witness_program := [x00; x20] ++ script_hash in
    wp_hash <- hashlib_ripemd160 (hashlib_sha256 witness_program) ;;
    if is_mainnet then
      P2SHAddr_EncodeKey wp_hash BitcoinMainNet (P2SH_net_ver [x05])
    else
      P2SHAddr_EncodeKey wp_hash BitcoinTestNet (P2SH_net_ver [xc4])
  else
    Raise (ValueError ("Unknown multisig script type: " ++ script_type)%string).

Definition derive_multisig_bip_utils
  (xpubs : list string) (threshold : Z) (index : Z) (script_type : string)
  (change : bool) (network : string) : result string :=
  let is_mainnet := (network =? "mainnet")%string in
  pub_keys <- derive_pub_keys xpubs is_mainnet change index [] ;;
  let pub_keys := list_sort pub_keys in
  redeem_script <- build_redeem_script threshold pub_keys ;;
  encode_multisig redeem_script script_type is_mainnet.

(** One turn of the loop of lines 130-145 on its own: the key of one
    cosigner. *)
Definition cosigner_key (is_mainnet change : bool) (index : Z)
  (xpub : string) : result bytes :=
  xpub <- convert_xpub xpub is_mainnet ;;
  derive_pub_key xpub change index.

(** The [CoinsConf] that the two branches of an [if is_mainnet] pass on. *)
Definition coin_of (is_mainnet : bool) : CoinsConf :=
  if is_mainnet then BitcoinMainNet else BitcoinTestNet.

End Script.

(** ** The layout of the redeem script *)

(** The script as a sequence of integers:
    [(0x50+T) || for each key: len(key) || key || (0x50+M) || 0xAE]. *)
Definition redeem_script_layout (threshold : Z) (pub_keys : list bytes)
  : list Z :=
  (0x50 + threshold)
    :: flat_map (fun pk => len pk :: bytes_val pk) pub_keys
    ++ [0x50 + len pub_keys; 0xAE].

(** The integers for which the three conversions to a byte succeed. *)
Definition script_in_range (threshold : Z) (pub_keys : list bytes) : Prop :=
  0 <= 0x50 + threshold <= 255
  /\ Forall (fun pk => len pk <= 255) pub_keys
  /\ 0x50 + len pub_keys <= 255.

(** ** The command line

    [main] reads [sys.argv], prints one JSON object and ends the process
    with a status.  The built-ins it calls on the arguments ([int],
    [json.loads]) are taken as they are, like the libraries. *)

(** [str(e)], the message of an exception. *)
Definition exn_str (e : exn) : string :=
  match e with PyExc _ msg => msg end.

(** [s.lower()] on the letters [A]-[Z].  The result is only compared with
    ['true'], and no other character lowers to one of its letters. *)
Definition char_lower (c : ascii) : ascii :=
  let n := nat_of_ascii c in
  if ((65 <=? n) && (n <=? 90))%nat then ascii_of_nat (n + 32) else c.

Fixpoint str_lower (s : string) : string :=
  match s with
  | EmptyString => EmptyString
  | String c s' => String (char_lower c) (str_lower s')
  end.

(** The spellings of [true] in upper and lower case. *)
Definition spells_true (s : string) : Prop :=
  exists t r u e,
    s = String t (String r (String u (String e "")))
    /\ In t ["t"; "T"]%char /\ In r ["r"; "R"]%char
    /\ In u ["u"; "U"]%char /\ In e ["e"; "E"]%char.

(** What [json.loads] returns. *)
#[local] Unset Elimination Schemes.
Inductive py_value : Type :=
| PyNone
| PyBool (b : bool)
| PyInt (n : Z)
| PyFloat (repr : string)
| PyStr (s : string)
| PyList (l : list py_value)
| PyDict (items : list (string * py_value)).
#[local] Set Elimination Schemes.

(** The value as a list of [str], when it is one. *)
Fixpoint as_str_list (l : list py_value) : option (list string) :=
  match l with
  | [] => Some []
  | PyStr s :: rest => option_map (cons s) (as_str_list rest)
  | _ :: _ => None
  end.

Class PyRuntime : Type := {
  (* [int(s)] *)
  py_int : string -> result Z;
  (* [json.loads(s)] *)
  json_loads : string -> result py_value;
  (* [derive_multisig_bip_utils] called on a JSON value that is not a list
     of [str]: what the interpreter and the libraries make of it *)
  derive_multisig_untyped :
    py_value -> Z -> Z -> string -> bool -> string -> result string
}.

(** The dictionaries that [main] hands to [print(json.dumps(...))]. *)
Inductive json_object : Type :=
| Obj_error (error : string)
| Obj_address (address : string)
| Obj_check (available : bool) (version : option string) (name : string).

Section Main.
Context {lib : BipUtils} {rt : PyRuntime}.

(** [sys.argv[i]]; [main] reads an index only below a checked length. *)
Definition arg (argv : list string) (i : nat) : string := nth i argv "".

(** Lines 224-225 and 240-241 inside the [try] of lines 211-249: print the
    address and fall through, or print [str(e)] and leave with status 1. *)
Definition print_result (r : result string) : list json_object * Z :=
  match r with
  | Return address => ([Obj_address address], 0)
  | Raise e => ([Obj_error (exn_str e)], 1)
  end.

(** Line 240 with the value of line 233. *)
Definition call_multisig (xpubs : py_value) (threshold index : Z)
  (script_type : string) (change : bool) (network : string) : result string :=
  match xpubs with
  | PyList l =>
      match as_str_list l with
      | Some xpubs =>
          derive_multisig_bip_utils xpubs threshold index script_type change
            network
      | None =>
          derive_multisig_untyped xpubs threshold index script_type change
            network
      end
  | _ =>
      derive_multisig_untyped xpubs threshold index script_type change network
  end.

(** Lines 191-249: what is printed, and the exit status. *)
Definition main (HAS_BIP_UTILS : bool) (argv : list string)
  : list json_object * Z :=
  if len argv <? 2 then
    ([Obj_error "Usage: python-verify.py <command> <args>"], 1)
  else
    let command := arg argv 1 in
    if (command =? "check")%string then
      ([Obj_check HAS_BIP_UTILS
          (if HAS_BIP_UTILS then Some "1.13.0" else None) "bip_utils"], 0)
    else if negb HAS_BIP_UTILS then
      ([Obj_error "bip_utils library not installed. Run: pip install bip_utils"], 1)
    else if (command =? "single")%string then
      if negb (len argv =? 7) then
        ([Obj_error "Usage: single <xpub> <index> <script_type> <change> <network>"], 1)
      else
        print_result
          (let xpub := arg argv 2 in
           index <- py_int (arg argv 3) ;;
           let script_type := arg argv 4 in
           let change := (str_lower (arg argv 5) =? "true")%string in
           let network := arg argv 6 in
           derive_single_sig_bip_utils xpub index script_type change network)
    else if (command =? "multi")%string then
      if negb (len argv =? 8) then
        ([Obj_error "Usage: multi <xpubs_json> <threshold> <index> <script_type> <change> <network>"], 1)
      else
        print_result
          (xpubs <- json_loads (arg argv 2) ;;
           threshold <- py_int (arg argv 3) ;;
           index <- py_int (arg argv 4) ;;
           let script_type := arg argv 5 in
           let change := (str_lower (arg argv 6) =? "true")%string in
           let network := arg argv 7 in
           call_multisig xpubs threshold index script_type change network)
    else
      ([Obj_error ("Unknown command: " ++ command)%string], 1).

End Main.

(** ** A multisig call, told by the library calls it makes

    The two relations below describe a returning multisig call without
    its network flag: they take the version bytes, the [CoinsConf] and the
    [net_ver] byte as given, and name the library calls made with them. *)
Section MultisigCalls.
Context {lib : BipUtils}.

(** [pub_key] is the key of the cosigner [xpub]: a key that starts with
    [xpub] or [tpub] is parsed as it is, any other is decoded, given the
    bytes [version] in place of its first four, and encoded again; the
    result is parsed and derived at [change/index]. *)
Definition cosigner_derives (version : bytes) (change : bool) (index : Z)
  (xpub : string) (pub_key : bytes) : Prop :=
  exists converted,
    ((In (substring 0 4 xpub) ["xpub"; "tpub"] /\ converted = xpub)
     \/ (~ In (substring 0 4 xpub) ["xpub"; "tpub"]
         /\ exists decoded,
             Base58Decoder_CheckDecode xpub = Return decoded
             /\ Base58Encoder_CheckEncode (version ++ skipn 4 decoded)
                = Return converted))
    /\ derive_pub_key converted change index = Return pub_key.

(** [addr] is the address of [redeem_script] for the script type, encoded
    for [coin] and, where P2SH is involved, with the version byte
    [net_ver]. *)
Definition multisig_address (coin : CoinsConf) (net_ver : bytes)
  (script_type : string) (redeem_script : bytes) (addr : string) : Prop :=
  exists script_hash_160,
    hashlib_ripemd160 (hashlib_sha256 redeem_script) = Return script_hash_160
    /\ ((script_type = "p2sh"
         /\ P2SHAddr_EncodeKey script_hash_160 coin (P2SH_net_ver net_ver)
            = Return addr)
        \/ (script_type = "p2wsh"
            /\ P2WSHAddr_EncodeKey (hashlib_sha256 redeem_script) coin
               = Return addr)
        \/ (script_type = "p2sh_p2wsh"
            /\ exists wp_hash,
                hashlib_ripemd160
                  (hashlib_sha256 ([x00; x20] ++ hashlib_sha256 redeem_script))
                = Return wp_hash
                /\ P2SHAddr_EncodeKey wp_hash coin (P2SH_net_ver net_ver)
                   = Return addr)).

End MultisigCalls.

(** ** A small executable implementation of the interface

    The statements below hold for every implementation of [BipUtils].  To
    run the script on concrete arguments an implementation is needed; this
    one is a stand-in with the shapes the script relies on and none of the
    cryptography: an extended key is spelled as its four-letter prefix
    followed by the 74 bytes of its body, one character per byte; child
    keys and digests come from a small mixing function; an address is a
    network prefix followed by hexadecimal digits.  Payloads have 78
    bytes, keys 33, digests 32 and 20. *)
Module MockLib.

Definition byte_of_N (n : N) : byte :=
  match Byte.of_N (n mod 256) with Some b => b | None => x00 end.

Fixpoint absorb (data : bytes) (h : N) : N :=
  match data with
  | [] => h
  | b :: rest => absorb rest ((h * 31 + Byte.to_N b + 1) mod 65521)%N
  end.

Fixpoint squeeze (n : nat) (h : N) : bytes :=
  match n with
  | O => []
  | S n' => byte_of_N h :: squeeze n' ((h * 75 + 74) mod 65537)%N
  end.

Definition mix (n : nat) (seed : N) (data : bytes) : bytes :=
  squeeze n (absorb data seed).

Definition hex_digit (n : N) : ascii :=
  nth (N.to_nat n)
    (list_ascii_of_string "0123456789abcdef") "0"%char.

Fixpoint hex (bs : bytes) : string :=
  match bs with
  | [] => ""
  | b :: rest =>
      String (hex_digit (Byte.to_N b / 16))
        (String (hex_digit (Byte.to_N b mod 16)) (hex rest))
  end.

Fixpoint bytes_eqb (a b : bytes) : bool :=
  match a, b with
  | [], [] => true
  | x :: a', y :: b' => Byte.eqb x y && bytes_eqb a' b'
  | _, _ => false
  end.

(** The version bytes of the SLIP-132 prefixes. *)
Definition versions : list (string * bytes) :=
  [ ("xpub", [x04; x88; xb2; x1e]); ("ypub", [x04; x9d; x7c; xb2]);
    ("zpub", [x04; xb2; x47; x46]); ("Ypub", [x02; x95; xb4; x3f]);
    ("Zpub", [x02; xaa; x7e; xd3]); ("tpub", [x04; x35; x87; xcf]);
    ("upub", [x04; x4a; x52; x62]); ("vpub", [x04; x5f; x1c; xf6]);
    ("Upub", [x02; x42; x89; xef]); ("Vpub", [x02; x57; x54; x83]) ].

Fixpoint version_of (prefix : string) (tbl : list (string * bytes))
  : option bytes :=
  match tbl with
  | [] => None
  | (p, v) :: rest => if (p =? prefix)%string then Some v else version_of prefix rest
  end.

Fixpoint prefix_of (version : bytes) (tbl : list (string * bytes))
  : option string :=
  match tbl with
  | [] => None
  | (p, v) :: rest => if bytes_eqb v version then Some p else prefix_of version rest
  end.

Definition CheckDecode (s : string) : result bytes :=
  match version_of (substring 0 4 s) versions with
  | Some v =>
      Return (v ++ list_byte_of_string (substring 4 (String.length s - 4) s))
  | None => Raise (ValueError "Invalid checksum")
  end.

Definition CheckEncode (payload : bytes) : result string :=
  match prefix_of (firstn 4 payload) versions with
  | Some p => Return (p ++ string_of_list_byte (skipn 4 payload))%string
  | None => Raise (ValueError "Invalid version")
  end.

Definition FromExtendedKey (s : string) : result bytes :=
  payload <- CheckDecode s ;;
  if (bytes_eqb (firstn 4 payload) MAINNET_VERSION
      || bytes_eqb (firstn 4 payload) TESTNET_VERSION)
     && (List.length payload =? 78)%nat
  then Return (skipn 4 payload)
  else Raise (PyExc "Bip32KeyError" "Invalid extended key").

Definition Derive (ctx : bytes) (path : string) : result bytes :=
  let data := ctx ++ list_byte_of_string path in
  Return (mix 41 1 data ++ x02 :: mix 32 2 data).

Definition RawCompressed (ctx : bytes) : bytes := skipn 41 ctx.

Definition hrp (coin : CoinsConf) : string :=
  match coin with BitcoinMainNet => "bc1" | BitcoinTestNet => "tb1" end.

Definition sized (n : nat) (key : bytes) (addr : string) : result string :=
  if (List.length key =? n)%nat then Return addr
  else Raise (ValueError "Invalid key length").

Definition P2PKH (key : bytes) (coin : CoinsConf) : result string :=
  sized 33 key
    ((match coin with BitcoinMainNet => "1" | BitcoinTestNet => "m" end)
     ++ hex (mix 20 3 key))%string.

Definition P2SH (key : bytes) (coin : CoinsConf) (arg : P2SHArg)
  : result string :=
  match arg with
  | P2SH_P2WPKH =>
      sized 33 key
        ((match coin with BitcoinMainNet => "3" | BitcoinTestNet => "2" end)
         ++ hex (mix 20 4 key))%string
  | P2SH_net_ver v => sized 20 key (hex v ++ hex key)%string
  end.

Definition P2WPKH (key : bytes) (coin : CoinsConf) : result string :=
  sized 33 key (hrp coin ++ "q" ++ hex (mix 20 3 key))%string.

Definition P2TR (key : bytes) (coin : CoinsConf) : result string :=
  sized 32 key (hrp coin ++ "p" ++ hex key)%string.

Definition P2WSH (key : bytes) (coin : CoinsConf) : result string :=
  sized 32 key (hrp coin ++ "q" ++ hex key)%string.

Definition sha256 (data : bytes) : bytes := mix 32 5 data.

Definition ripemd160 (data : bytes) : result bytes := Return (mix 20 6 data).

#[export] Instance lib : BipUtils := {|
  Bip32Ctx := bytes;
  Base58Decoder_CheckDecode := CheckDecode;
  Base58Encoder_CheckEncode := CheckEncode;
  Bip32Secp256k1_FromExtendedKey := FromExtendedKey;
  DerivePath := Derive;
  PublicKey_RawCompressed := RawCompressed;
  P2PKHAddr_EncodeKey := P2PKH;
  P2SHAddr_EncodeKey := P2SH;
  P2WPKHAddr_EncodeKey := P2WPKH;
  P2TRAddr_EncodeKey := P2TR;
  P2WSHAddr_EncodeKey := P2WSH;
  hashlib_sha256 := sha256;
  hashlib_ripemd160 := ripemd160
|}.

(** Extended keys in this spelling: the body is the depth, the
    parent fingerprint, the child number, the chain code and the key. *)
Definition body (tag : string) : string :=
  ("0fgpr0000" ++ "chaincodechaincodechaincode" ++ tag
     ++ "2publickeypublickeypublickeypubke")%string.

Definition xpub_A : string := ("xpub" ++ body "AAAAA")%string.
Definition zpub_B : string := ("zpub" ++ body "BBBBB")%string.
Definition Zpub_D : string := ("Zpub" ++ body "DDDDD")%string.
Definition vpub_E : string := ("vpub" ++ body "EEEEE")%string.

(** The payload of a key in this spelling, and the key of a child. *)
Definition versions_payload (s : string) : bytes :=
  match CheckDecode s with Return payload => payload | Raise _ => [] end.

Definition child_key (xpub path : string) : bytes :=
  let data := skipn 4 (versions_payload xpub) ++ list_byte_of_string path in
  RawCompressed (mix 41 1 data ++ x02 :: mix 32 2 data).

End MockLib.

(** A stand-in for the built-ins: [int] reads a plain decimal numeral and
    [json.loads] an array of strings without escapes; every other JSON
    value is refused by the call. *)
Module MockRuntime.

Definition quote : ascii := ascii_of_nat 34.

Definition int (s : string) : result Z :=
  match NilZero.int_of_string s with
  | Some d => Return (Z.of_int d)
  | None =>
      Raise (ValueError ("invalid literal for int() with base 10: " ++ s)%string)
  end.

Fixpoint read_str (s acc : string) : option (string * string) :=
  match s with
  | EmptyString => None
  | String c rest =>
      if Ascii.eqb c quote then Some (acc, rest)
      else read_str rest (acc ++ String c "")%string
  end.

Fixpoint read_items (fuel : nat) (s : string) : option (list string) :=
  match fuel, s with
  | S fuel', String c rest =>
      if Ascii.eqb c quote then
        match read_str rest "" with
        | Some (item, String sep rest') =>
            if Ascii.eqb sep "," then
              option_map (cons item) (read_items fuel' rest')
            else if Ascii.eqb sep "]" then
              match rest' with EmptyString => Some [item] | _ => None end
            else None
        | _ => None
        end
      else None
  | _, _ => None
  end.

Definition loads (s : string) : result py_value :=
  match s with
  | String "[" rest =>
      if (rest =? "]")%string then Return (PyList [])
      else match read_items (String.length rest) rest with
           | Some items => Return (PyList (map PyStr items))
           | None => Raise (PyExc "JSONDecodeError" "Expecting value")
           end
  | _ => Raise (PyExc "JSONDecodeError" "Expecting value")
  end.

Definition untyped (xpubs : py_value) (threshold index : Z)
  (script_type : string) (change : bool) (network : string) : result string :=
  Raise (PyExc "TypeError" "object is not a list of str").

#[export] Instance rt : PyRuntime := {|
  py_int := int;
  json_loads := loads;
  derive_multisig_untyped := untyped
|}.

(** The text of an array of strings. *)
Fixpoint json_items (l : list string) : string :=
  match l with
  | [] => ""
  | [s] => String quote (s ++ String quote "")
  | s :: rest => String quote (s ++ String quote (String "," (json_items rest)))
  end%string.

Definition json_array (l : list string) : string :=
  ("[" ++ json_items l ++ "]")%string.

(** Built-ins that refuse every argument. *)
Definition refusing : PyRuntime := {|
  py_int := fun s => Raise (ValueError "invalid literal");
  json_loads := fun s => Raise (PyExc "JSONDecodeError" "Expecting value");
  derive_multisig_untyped := untyped
|}.

(** Two command lines. *)
Definition single_argv : list string :=
  ["python-verify.py"; "single"; MockLib.xpub_A; "0"; "legacy"; "TRUE";
   "mainnet"].

Definition multi_argv : list string :=
  ["python-verify.py"; "multi"; json_array [MockLib.xpub_A; MockLib.zpub_B];
   "2"; "0"; "p2wsh"; "false"; "mainnet"].

End MockRuntime.

(** ** The order on [bytes] *)

Lemma byte_to_N_inj (x y : byte) : Byte.to_N x = Byte.to_N y -> x = y.
Proof.
  intros E.
  assert (S : Some x = Some y)
    by (rewrite <- (Byte.of_to_N x), <- (Byte.of_to_N y), E; reflexivity).
  now inversion S.
Qed.

Lemma bytes_ltb_irrefl (a : bytes) : bytes_ltb a a = false.
Proof.
  induction a as [|x a IH]; simpl; [reflexivity|].
  now rewrite N.ltb_irrefl.
Qed.

Lemma bytes_ltb_asym (a b : bytes) :
  bytes_ltb a b = true -> bytes_ltb b a = false.
Proof.
  revert b; induction a as [|x a IH]; intros [|y b]; simpl; try easy.
  destruct (N.ltb_spec (Byte.to_N x) (Byte.to_N y)) as [Hxy|Hxy];
    destruct (N.ltb_spec (Byte.to_N y) (Byte.to_N x)) as [Hyx|Hyx];
    try easy; try lia.
  apply IH.
Qed.

Lemma bytes_ltb_trans (a b c : bytes) :
  bytes_ltb a b = true -> bytes_ltb b c = true -> bytes_ltb a c = true.
Proof.
  revert b c; induction a as [|x a IH]; intros [|y b] [|z c]; simpl; try easy.
  destruct (N.ltb_spec (Byte.to_N x) (Byte.to_N y));
    destruct (N.ltb_spec (Byte.to_N y) (Byte.to_N x));
    destruct (N.ltb_spec (Byte.to_N y) (Byte.to_N z));
    destruct (N.ltb_spec (Byte.to_N z) (Byte.to_N y));
    destruct (N.ltb_spec (Byte.to_N x) (Byte.to_N z));
    destruct (N.ltb_spec (Byte.to_N z) (Byte.to_N x));
    try easy; try lia.
  apply IH.
Qed.

Lemma bytes_ltb_total (a b : bytes) :
  bytes_ltb a b = false -> bytes_ltb b a = false -> a = b.
Proof.
  revert b; induction a as [|x a IH]; intros [|y b]; simpl; try easy.
  destruct (N.ltb_spec (Byte.to_N x) (Byte.to_N y));
    destruct (N.ltb_spec (Byte.to_N y) (Byte.to_N x));
    try easy.
  intros Hab Hba. f_equal.
  - apply byte_to_N_inj; lia.
  - now apply IH.
Qed.

Lemma bytes_le_trans (a b c : bytes) :
  bytes_le a b -> bytes_le b c -> bytes_le a c.
Proof.
  unfold bytes_le; intros Hab Hbc.
  destruct (bytes_ltb c a) eqn:Hca; [|reflexivity].
  destruct (bytes_ltb a b) eqn:Hlt.
  - rewrite (bytes_ltb_trans c a b Hca Hlt) in Hbc; discriminate.
  - assert (a = b) by now apply bytes_ltb_total. subst. congruence.
Qed.

(** ** [list.sort] on keys *)

Lemma insert_sorted_perm (k : bytes) (l : list bytes) :
  Permutation (k :: l) (insert_sorted k l).
Proof.
  induction l as [|h t IH]; simpl; [reflexivity|].
  destruct (bytes_ltb k h); [reflexivity|].
  rewrite perm_swap. now constructor.
Qed.

Lemma fold_insert_perm (l acc : list bytes) :
  Permutation (l ++ acc) (fold_left (fun acc k => insert_sorted k acc) l acc).
Proof.
  revert acc; induction l as [|k l IH]; intros acc; simpl; [reflexivity|].
  rewrite <- IH, <- insert_sorted_perm.
  now rewrite Permutation_middle.
Qed.

Lemma list_sort_perm (l : list bytes) : Permutation l (list_sort l).
Proof.
  unfold list_sort. rewrite <- fold_insert_perm. now rewrite app_nil_r.
Qed.

Lemma list_sort_length (l : list bytes) :
  List.length (list_sort l) = List.length l.
Proof. symmetry. apply Permutation_length, list_sort_perm. Qed.

Lemma insert_sorted_HdRel (a k : bytes) (l : list bytes) :
  bytes_le a k -> HdRel bytes_le a l -> HdRel bytes_le a (insert_sorted k l).
Proof.
  intros Hak Hl. destruct l as [|h t]; simpl; [now constructor|].
  destruct (bytes_ltb k h); constructor; trivial.
  now inversion Hl.
Qed.

Lemma insert_sorted_Sorted (k : bytes) (l : list bytes) :
  Sorted bytes_le l -> Sorted bytes_le (insert_sorted k l).
Proof.
  induction 1 as [|h t Ht IH Hh]; simpl; [repeat constructor|].
  destruct (bytes_ltb k h) eqn:E.
  - constructor; [now constructor|].
    constructor. now apply bytes_ltb_asym.
  - constructor; [exact IH|].
    now apply insert_sorted_HdRel.
Qed.

Lemma fold_insert_Sorted (l acc : list bytes) :
  Sorted bytes_le acc ->
  Sorted bytes_le (fold_left (fun acc k => insert_sorted k acc) l acc).
Proof.
  revert acc; induction l as [|k l IH]; intros acc Hacc; simpl; [exact Hacc|].
  now apply IH, insert_sorted_Sorted.
Qed.

(** The sorted keys ascend by raw byte value. *)
Lemma list_sort_Sorted (l : list bytes) : Sorted bytes_le (list_sort l).
Proof. apply fold_insert_Sorted. constructor. Qed.

(** Two insertions commute, whatever the list. *)
Lemma insert_sorted_comm (a b : bytes) (l : list bytes) :
  insert_sorted a (insert_sorted b l) = insert_sorted b (insert_sorted a l).
Proof.
  induction l as [|h t IH]; simpl.
  - destruct (bytes_ltb a b) eqn:Hab, (bytes_ltb b a) eqn:Hba; trivial.
    + now rewrite (bytes_ltb_asym a b Hab) in Hba.
    + now rewrite (bytes_ltb_total a b Hab Hba).
  - destruct (bytes_ltb b h) eqn:Hbh, (bytes_ltb a h) eqn:Hah; simpl;
      rewrite ?Hbh, ?Hah.
    + destruct (bytes_ltb a b) eqn:Hab, (bytes_ltb b a) eqn:Hba; trivial.
      * now rewrite (bytes_ltb_asym a b Hab) in Hba.
      * now rewrite (bytes_ltb_total a b Hab Hba).
    + destruct (bytes_ltb a b) eqn:Hab; trivial.
      now rewrite (bytes_ltb_trans a b h Hab Hbh) in Hah.
    + destruct (bytes_ltb b a) eqn:Hba; trivial.
      now rewrite (bytes_ltb_trans b a h Hba Hah) in Hbh.
    + now rewrite IH.
Qed.

(** Sorting forgets the order of its input. *)
Lemma list_sort_Permutation (l l' : list bytes) :
  Permutation l l' -> list_sort l = list_sort l'.
Proof.
  unfold list_sort. generalize (@nil bytes) as acc.
  intros acc H; revert acc.
  induction H as [|x l l' H IH|x y l|l l' l'' H1 IH1 H2 IH2]; intros acc; simpl.
  - reflexivity.
  - apply IH.
  - now rewrite insert_sorted_comm.
  - now rewrite IH1.
Qed.

(** ** The exception monad *)

Lemma bind_Return_inv {A B : Type} (m : result A) (k : A -> result B) (b : B) :
  bind m k = Return b -> exists a, m = Return a /\ k a = Return b.
Proof. destruct m as [a|e]; simpl; [eauto|discriminate]. Qed.

Ltac bind_inv H :=
  let a := fresh "v" in
  let Ha := fresh "E" in
  apply bind_Return_inv in H; destruct H as (a & Ha & H).

(** ** [bytes([n])] *)

Lemma bytes_of_int_Return (n : Z) (bs : bytes) :
  bytes_of_int n = Return bs <-> bytes_val bs = [n].
Proof.
  unfold bytes_of_int, bytes_val, byte_val. split.
  - destruct (Z.ltb_spec n 0); [discriminate|].
    destruct (Z.ltb_spec 255 n); [discriminate|]. simpl.
    destruct (Byte.of_N (Z.to_N n)) as [b|] eqn:E; [|discriminate].
    intros [= <-]. simpl. apply Byte.to_of_N in E. rewrite E. f_equal. lia.
  - destruct bs as [|b [|b' bs]]; try discriminate. simpl. intros [= <-].
    pose proof (Byte.to_N_bounded b).
    destruct (Z.ltb_spec (Z.of_N (Byte.to_N b)) 0); [lia|].
    destruct (Z.ltb_spec 255 (Z.of_N (Byte.to_N b))); [lia|]. simpl.
    now rewrite N2Z.id, Byte.of_to_N.
Qed.

Lemma bytes_of_int_Raise (n : Z) (e : exn) :
  bytes_of_int n = Raise e ->
  (n < 0 \/ 255 < n) /\ e = ValueError "bytes must be in range(0, 256)".
Proof.
  unfold bytes_of_int.
  destruct (Z.ltb_spec n 0); [intros [= <-]; split; [lia|reflexivity]|].
  destruct (Z.ltb_spec 255 n); [intros [= <-]; split; [lia|reflexivity]|]. simpl.
  destruct (Byte.of_N (Z.to_N n)) eqn:E; [discriminate|].
  apply Byte.of_N_None_iff in E. lia.
Qed.

Lemma bytes_of_int_in_range (n : Z) :
  0 <= n <= 255 -> exists b, bytes_of_int n = Return [b] /\ byte_val b = n.
Proof.
  intros Hn. destruct (bytes_of_int n) as [bs|e] eqn:E.
  - pose proof (proj1 (bytes_of_int_Return n bs) E) as Hv.
    destruct bs as [|b [|b' bs]]; try discriminate.
    exists b. split; [reflexivity|]. now inversion Hv.
  - apply bytes_of_int_Raise in E. lia.
Qed.

Lemma byte_val_range (b : byte) : 0 <= byte_val b <= 255.
Proof. unfold byte_val. pose proof (Byte.to_N_bounded b). lia. Qed.

Lemma bytes_val_inj (a b : bytes) : bytes_val a = bytes_val b -> a = b.
Proof.
  revert b; induction a as [|x a IH]; intros [|y b]; simpl; try easy.
  intros [= Hxy Hab]. f_equal; [|now apply IH].
  apply byte_to_N_inj. unfold byte_val in Hxy. lia.
Qed.

Lemma bytes_val_app (a b : bytes) :
  bytes_val (a ++ b) = bytes_val a ++ bytes_val b.
Proof. apply map_app. Qed.

(** ** The loop over the cosigners *)

Section Cosigners.
Context {lib : BipUtils}.

Lemma derive_pub_keys_Return (xpubs : list string) (m c : bool) (i : Z)
  (acc keys : list bytes) :
  derive_pub_keys xpubs m c i acc = Return keys <->
  exists ks, Forall2 (fun x k => cosigner_key m c i x = Return k) xpubs ks
             /\ keys = acc ++ ks.
Proof.
  revert acc keys; induction xpubs as [|x xs IH]; intros acc keys; simpl.
  - split.
    + intros [= <-]. exists []. now rewrite app_nil_r.
    + intros (ks & H & ->). inversion H. now rewrite app_nil_r.
  - split.
    + intros H. bind_inv H. bind_inv H. apply IH in H.
      destruct H as (ks & HF & ->). exists (v0 :: ks). split.
      * constructor; [|exact HF]. unfold cosigner_key. now rewrite E.
      * now rewrite <- app_assoc.
    + intros (ks & HF & ->). inversion HF as [|x' k xs' ks' Hk HF']; subst.
      unfold cosigner_key in Hk. bind_inv Hk. rewrite E. simpl.
      rewrite Hk. simpl. apply IH. exists ks'. split; [exact HF'|].
      now rewrite <- app_assoc.
Qed.

(** A permuted list of cosigners that all derive gives the permuted keys. *)
Lemma derive_pub_keys_Permutation (xpubs xpubs' : list string) (m c : bool)
  (i : Z) (keys : list bytes) :
  Permutation xpubs xpubs' ->
  derive_pub_keys xpubs m c i [] = Return keys ->
  exists keys', derive_pub_keys xpubs' m c i [] = Return keys'
                /\ Permutation keys keys'.
Proof.
  intros HP H. apply derive_pub_keys_Return in H. destruct H as (ks & HF & ->).
  destruct (Permutation_Forall2 HP HF) as (ks' & HP' & HF').
  exists ks'. split; [|exact HP'].
  apply derive_pub_keys_Return. now exists ks'.
Qed.

(** C1.  Cosigner-order invariance: when [derive_multisig_bip_utils]
    returns an address for a list of xpubs, it returns the same address
    for every permutation of that list, the threshold, index, script type,
    change flag and network being the same.  The reason is the sort: both
    calls derive the same keys up to order, and the redeem script is built
    from the one ascending arrangement of them. *)
Theorem cosigner_order_invariance
  (xpubs xpubs' : list string) (threshold index : Z) (script_type : string)
  (change : bool) (network addr : string) :
  Permutation xpubs xpubs' ->
  derive_multisig_bip_utils xpubs threshold index script_type change network
    = Return addr ->
  derive_multisig_bip_utils xpubs' threshold index script_type change network
    = Return addr
  /\ exists keys keys',
      derive_pub_keys xpubs (network =? "mainnet")%string change index []
        = Return keys
      /\ derive_pub_keys xpubs' (network =? "mainnet")%string change index []
        = Return keys'
      /\ list_sort keys = list_sort keys'
      /\ Sorted bytes_le (list_sort keys).
Proof.
  intros HP H. unfold derive_multisig_bip_utils in *.
  destruct (derive_pub_keys xpubs _ change index []) as [keys|e] eqn:Hk;
    [|discriminate].
  destruct (derive_pub_keys_Permutation _ _ _ _ _ _ HP Hk) as (keys' & Hk' & HPk).
  rewrite Hk'. simpl in *.
  rewrite <- (list_sort_Permutation keys keys' HPk).
  split; [exact H|].
  exists keys, keys'. repeat split; trivial.
  - now apply list_sort_Permutation.
  - apply list_sort_Sorted.
Qed.

End Cosigners.

(** The three mock cosigners in two orders: one address. *)
Lemma cosigner_order_invariance_witness :
  Permutation [MockLib.xpub_A; MockLib.zpub_B; MockLib.Zpub_D]
              [MockLib.Zpub_D; MockLib.xpub_A; MockLib.zpub_B]
  /\ derive_multisig_bip_utils (lib := MockLib.lib)
       [MockLib.Zpub_D; MockLib.xpub_A; MockLib.zpub_B] 2 0 "p2wsh" false "mainnet"
     = Return "bc1q2d4dc47db9594b1a9fb536e41551ddcc003473b23e741557aafb99db6def3d09".
Proof.
  assert (HP : Permutation [MockLib.xpub_A; MockLib.zpub_B; MockLib.Zpub_D]
                           [MockLib.Zpub_D; MockLib.xpub_A; MockLib.zpub_B]).
  { apply Permutation_sym. apply (Permutation_cons_app [_; _] []). reflexivity. }
  split; [exact HP|].
  apply (cosigner_order_invariance (lib := MockLib.lib) _ _ 2 0 "p2wsh" false
           "mainnet" _ HP).
  vm_compute. reflexivity.
Defined.

(** ** The redeem script *)

Section RedeemScript.
Context {lib : BipUtils}.

Lemma len_nonneg {A : Type} (l : list A) : 0 <= len l.
Proof. unfold len. lia. Qed.

Lemma bytes_val_Forall (bs : bytes) :
  Forall (fun z => 0 <= z <= 255) (bytes_val bs).
Proof. apply Forall_map, Forall_forall. intros b _. apply byte_val_range. Qed.

Lemma push_keys_val (keys : list bytes) (acc s : bytes) :
  push_keys acc keys = Return s ->
  bytes_val s
  = bytes_val acc ++ flat_map (fun pk => len pk :: bytes_val pk) keys.
Proof.
  revert acc; induction keys as [|k keys IH]; intros acc; simpl.
  - intros [= <-]. now rewrite app_nil_r.
  - intros H. bind_inv H. apply IH in H. rewrite H.
    apply bytes_of_int_Return in E.
    rewrite !bytes_val_app, E, <- !app_assoc. reflexivity.
Qed.

Lemma push_keys_total (keys : list bytes) (acc : bytes) :
  Forall (fun pk => len pk <= 255) keys ->
  exists s, push_keys acc keys = Return s.
Proof.
  revert acc; induction keys as [|k keys IH]; intros acc HF; simpl.
  - eauto.
  - inversion HF as [|k' keys' Hk HF']; subst.
    destruct (bytes_of_int_in_range (len k)) as (b & -> & _).
    { pose proof (len_nonneg k). lia. }
    simpl. now apply IH.
Qed.

Lemma push_keys_Raise (keys : list bytes) (acc : bytes) (e : exn) :
  push_keys acc keys = Raise e ->
  ~ Forall (fun pk => len pk <= 255) keys
  /\ e = ValueError "bytes must be in range(0, 256)".
Proof.
  revert acc; induction keys as [|k keys IH]; intros acc; simpl; [discriminate|].
  destruct (bytes_of_int (len k)) as [b|e'] eqn:E; simpl.
  - intros H. apply IH in H. destruct H as [HN ->]. split; [|reflexivity].
    intros HF. apply HN. now inversion HF.
  - intros [= <-]. apply bytes_of_int_Raise in E. destruct E as [E ->].
    split; [|reflexivity]. intros HF. inversion HF; subst.
    pose proof (len_nonneg k). lia.
Qed.

(** What [build_redeem_script] returns is the layout, byte for byte. *)
Lemma build_redeem_script_val (threshold : Z) (keys : list bytes) (s : bytes) :
  build_redeem_script threshold keys = Return s ->
  bytes_val s = redeem_script_layout threshold keys.
Proof.
  unfold build_redeem_script, redeem_script_layout. intros H.
  bind_inv H. bind_inv H. bind_inv H. injection H as <-.
  apply bytes_of_int_Return in E, E1. apply push_keys_val in E0.
  rewrite !bytes_val_app, E0, E, E1, <- app_assoc. reflexivity.
Qed.

(** It returns whenever the three kinds of integers fit a byte. *)
Lemma build_redeem_script_total (threshold : Z) (keys : list bytes) :
  script_in_range threshold keys ->
  exists s, build_redeem_script threshold keys = Return s.
Proof.
  intros (HT & HF & HM). unfold build_redeem_script.
  destruct (bytes_of_int_in_range _ HT) as (b & -> & _). cbn [bind].
  destruct (push_keys_total keys [b] HF) as (s1 & ->). cbn [bind].
  destruct (bytes_of_int_in_range (0x50 + len keys)) as (b' & -> & _).
  { pose proof (len_nonneg keys). lia. }
  cbn [bind]. eauto.
Qed.

(** It raises only the [ValueError] of [bytes([n])], and only out of range. *)
Lemma build_redeem_script_Raise (threshold : Z) (keys : list bytes) (e : exn) :
  build_redeem_script threshold keys = Raise e ->
  ~ script_in_range threshold keys
  /\ e = ValueError "bytes must be in range(0, 256)".
Proof.
  unfold build_redeem_script, script_in_range.
  destruct (bytes_of_int (0x50 + threshold)) as [b|e'] eqn:E; cbn [bind].
  2:{ intros [= <-]. apply bytes_of_int_Raise in E. destruct E as [E ->].
      split; [lia|reflexivity]. }
  destruct (push_keys b keys) as [s1|e'] eqn:E1; cbn [bind].
  2:{ intros [= <-]. apply push_keys_Raise in E1. destruct E1 as [E1 ->].
      split; [tauto|reflexivity]. }
  destruct (bytes_of_int (0x50 + len keys)) as [b'|e'] eqn:E2; cbn [bind].
  - discriminate.
  - intros [= <-]. apply bytes_of_int_Raise in E2. destruct E2 as [E2 ->].
    pose proof (len_nonneg keys). split; [lia|reflexivity].
Qed.

Lemma layout_in_range (threshold : Z) (keys : list bytes) :
  Forall (fun z => 0 <= z <= 255) (redeem_script_layout threshold keys) ->
  script_in_range threshold keys.
Proof.
  unfold redeem_script_layout, script_in_range. intros H.
  pose proof (Forall_inv H) as HT. cbv beta in HT.
  apply Forall_inv_tail, Forall_app in H.
  destruct H as [Hk Hn]. split; [exact HT|]. split.
  - apply Forall_forall. intros k Hin.
    rewrite Forall_forall in Hk.
    apply (Hk (len k)). apply in_flat_map. exists k. split; [exact Hin|].
    now left.
  - apply Forall_inv in Hn. cbv beta in Hn. lia.
Qed.

(** The two together: a byte string is returned exactly when it spells
    the layout. *)
Lemma build_redeem_script_iff (threshold : Z) (keys : list bytes) (s : bytes) :
  build_redeem_script threshold keys = Return s <->
  bytes_val s = redeem_script_layout threshold keys.
Proof.
  split; [apply build_redeem_script_val|]. intros Hs.
  destruct (build_redeem_script_total threshold keys) as (s' & Hs').
  { apply layout_in_range. rewrite <- Hs. apply bytes_val_Forall. }
  rewrite Hs'. f_equal. apply bytes_val_inj.
  now rewrite Hs, (build_redeem_script_val _ _ _ Hs').
Qed.

(** C2.  The redeem script of a multisig call: when
    [derive_multisig_bip_utils] returns an address, the keys of the
    cosigners were derived, and the script that was hashed is, read as
    integers, [0x50+T], then for each key in ascending order its length
    and its bytes, then [0x50+M] and [0xAE], where [M] is the number of
    keys. *)
Theorem redeem_script_layout_correct
  (xpubs : list string) (threshold index : Z) (script_type : string)
  (change : bool) (network addr : string) :
  derive_multisig_bip_utils xpubs threshold index script_type change network
    = Return addr ->
  exists keys redeem_script,
    derive_pub_keys xpubs (network =? "mainnet")%string change index []
      = Return keys
    /\ build_redeem_script threshold (list_sort keys) = Return redeem_script
    /\ bytes_val redeem_script
       = (0x50 + threshold)
           :: flat_map (fun pk => len pk :: bytes_val pk) (list_sort keys)
           ++ [0x50 + len xpubs; 0xAE]
    /\ Sorted bytes_le (list_sort keys)
    /\ encode_multisig redeem_script script_type (network =? "mainnet")%string
       = Return addr.
Proof.
  unfold derive_multisig_bip_utils. intros H.
  bind_inv H. bind_inv H. exists v, v0. split; [exact E|].
  split; [exact E0|]. split; [|split; [apply list_sort_Sorted|exact H]].
  rewrite (build_redeem_script_val _ _ _ E0). unfold redeem_script_layout.
  do 4 f_equal. unfold len. f_equal. rewrite list_sort_length.
  apply derive_pub_keys_Return in E. destruct E as (ks & HF & ->).
  symmetry. apply (Forall2_length HF).
Qed.

End RedeemScript.

Lemma redeem_script_layout_correct_witness :
  exists keys redeem_script,
    derive_pub_keys (lib := MockLib.lib)
      [MockLib.xpub_A; MockLib.zpub_B; MockLib.Zpub_D] true false 0 []
      = Return keys
    /\ build_redeem_script 2 (list_sort keys) = Return redeem_script
    /\ bytes_val redeem_script
       = 0x52 :: flat_map (fun pk => len pk :: bytes_val pk) (list_sort keys)
           ++ [0x53; 0xAE]
    /\ Sorted bytes_le (list_sort keys)
    /\ encode_multisig (lib := MockLib.lib) redeem_script "p2wsh" true
       = Return "bc1q2d4dc47db9594b1a9fb536e41551ddcc003473b23e741557aafb99db6def3d09".
Proof.
  apply (redeem_script_layout_correct (lib := MockLib.lib)
           [MockLib.xpub_A; MockLib.zpub_B; MockLib.Zpub_D] 2 0 "p2wsh" false
           "mainnet").
  vm_compute. reflexivity.
Defined.

(** ** Threshold and cosigner count *)

Section Threshold.
Context {lib : BipUtils}.

Lemma script_in_range_iff (threshold : Z) (keys : list bytes) :
  Forall (fun pk => len pk <= 255) keys ->
  script_in_range threshold keys <->
  -80 <= threshold <= 175 /\ len keys <= 175.
Proof. unfold script_in_range. intros HF. split; intros H; repeat split; try tauto; lia. Qed.

(** C3, as the script has it.  [derive_multisig_bip_utils] holds no test
    of the threshold [T] against [1..16] nor against the cosigner count
    [M].  Once the keys are derived (each at most 255 bytes long), the
    redeem script is built exactly when [0x50+T] and [0x50+M] fit a byte,
    that is when [-80 <= T <= 175] and [M <= 175], and the call goes on to
    hash and encode it; outside that range the call raises the
    [ValueError] of [bytes([n])]. *)
Theorem threshold_only_bounded_by_byte_range
  (xpubs : list string) (threshold index : Z) (script_type : string)
  (change : bool) (network : string) (keys : list bytes) :
  derive_pub_keys xpubs (network =? "mainnet")%string change index []
    = Return keys ->
  Forall (fun pk => len pk <= 255) keys ->
  (-80 <= threshold <= 175 /\ len xpubs <= 175 ->
   exists redeem_script,
     build_redeem_script threshold (list_sort keys) = Return redeem_script
     /\ derive_multisig_bip_utils xpubs threshold index script_type change
          network
        = encode_multisig redeem_script script_type
            (network =? "mainnet")%string)
  /\ (~ (-80 <= threshold <= 175 /\ len xpubs <= 175) ->
      derive_multisig_bip_utils xpubs threshold index script_type change
        network
      = Raise (ValueError "bytes must be in range(0, 256)")).
Proof.
  intros Hk HF. unfold derive_multisig_bip_utils. rewrite Hk. cbn [bind].
  assert (HM : len (list_sort keys) = len xpubs).
  { unfold len. f_equal. rewrite list_sort_length.
    apply derive_pub_keys_Return in Hk. destruct Hk as (ks & HF2 & ->).
    symmetry. apply (Forall2_length HF2). }
  assert (HF' : Forall (fun pk => len pk <= 255) (list_sort keys)).
  { rewrite Forall_forall in *. intros k Hin. apply HF.
    apply Permutation_in with (l := list_sort keys); [|exact Hin].
    apply Permutation_sym, list_sort_perm. }
  pose proof (script_in_range_iff threshold _ HF') as Hiff.
  rewrite HM in Hiff. split.
  - intros HR. apply Hiff in HR.
    destruct (build_redeem_script_total _ _ HR) as (s & Hs).
    exists s. split; [exact Hs|]. now rewrite Hs.
  - intros HN.
    destruct (build_redeem_script threshold (list_sort keys)) as [s|e] eqn:Hs.
    + exfalso. apply HN, Hiff. apply layout_in_range.
      rewrite <- (build_redeem_script_val _ _ _ Hs). apply bytes_val_Forall.
    + apply build_redeem_script_Raise in Hs. destruct Hs as [_ ->].
      reflexivity.
Qed.

(** C4, as the script has it.  With no xpub at all the loop derives no
    key and the call goes on: the redeem script is the three bytes
    [0x50+T], [0x50], [0xAE], which is hashed and encoded for the script
    type like any other; the only failure of the script's own is the
    [ValueError] of [bytes([0x50+T])]. *)
Theorem empty_key_set_is_encoded
  (threshold index : Z) (script_type : string) (change : bool)
  (network : string) :
  derive_multisig_bip_utils [] threshold index script_type change network
  = (op_m <- bytes_of_int (0x50 + threshold) ;;
     encode_multisig (op_m ++ [x50; xae]) script_type
       (network =? "mainnet")%string).
Proof.
  unfold derive_multisig_bip_utils, build_redeem_script.
  cbn [derive_pub_keys bind list_sort fold_left].
  destruct (bytes_of_int (0x50 + threshold)) as [op_m|e]; [|reflexivity].
  cbn [bind push_keys].
  change (bytes_of_int (0x50 + len (@nil bytes))) with (Return [x50]).
  cbn [bind]. now rewrite <- app_assoc.
Qed.

End Threshold.

Lemma threshold_only_bounded_by_byte_range_witness :
  exists keys,
    derive_pub_keys (lib := MockLib.lib) [MockLib.xpub_A] true false 0 []
      = Return keys
    /\ Forall (fun pk => len pk <= 255) keys
    /\ (-80 <= 2 <= 175 /\ len [MockLib.xpub_A] <= 175 ->
        exists redeem_script,
          build_redeem_script 2 (list_sort keys) = Return redeem_script
          /\ derive_multisig_bip_utils (lib := MockLib.lib) [MockLib.xpub_A]
               2 0 "p2sh" false "mainnet"
             = encode_multisig (lib := MockLib.lib) redeem_script "p2sh" true)
    /\ (~ (-80 <= 2 <= 175 /\ len [MockLib.xpub_A] <= 175) ->
        derive_multisig_bip_utils (lib := MockLib.lib) [MockLib.xpub_A]
          2 0 "p2sh" false "mainnet"
        = Raise (ValueError "bytes must be in range(0, 256)")).
Proof.
  eexists. split; [vm_compute; reflexivity|].
  assert (HF : Forall (fun pk : bytes => len pk <= 255)
                 [skipn 41
                    (MockLib.mix 41 1
                       (skipn 4 (list_byte_of_string MockLib.xpub_A)
                        ++ list_byte_of_string "0/0")
                     ++ x02 :: MockLib.mix 32 2
                       (skipn 4 (list_byte_of_string MockLib.xpub_A)
                        ++ list_byte_of_string "0/0"))]).
  { constructor; [vm_compute; discriminate|constructor]. }
  split; [exact HF|].
  apply (threshold_only_bounded_by_byte_range (lib := MockLib.lib)
           [MockLib.xpub_A] 2 0 "p2sh" false "mainnet").
  - vm_compute. reflexivity.
  - exact HF.
Defined.

(** At a threshold of 0 and at a threshold of 17, with one cosigner, the
    script returns an address; so it does with seventeen cosigners. *)
Lemma threshold_out_of_1_16_returns_address :
  derive_multisig_bip_utils (lib := MockLib.lib) [MockLib.xpub_A] 0 0 "p2sh"
    false "mainnet"
  = Return "05977f63374f3d05ba84bd7f35beab2bc2ffd15a7c"
  /\ derive_multisig_bip_utils (lib := MockLib.lib) [MockLib.xpub_A] 17 0
       "p2wsh" false "mainnet"
     = Return "bc1q1ab25f110dd9d03036d43165d17435b2521ef07f6e7aec4540ec3028e1140b6f"
  /\ derive_multisig_bip_utils (lib := MockLib.lib)
       (repeat MockLib.xpub_A 17) 1 0 "p2wsh" false "mainnet"
     = Return "bc1qc054c776c369cd2ec4878ec75ffcdf5feace934aec67618370ec39e7df5ea87e".
Proof. repeat split; vm_compute; reflexivity. Qed.

(** With no xpub the script returns an address. *)
Lemma empty_key_set_returns_address :
  derive_multisig_bip_utils (lib := MockLib.lib) [] 1 0 "p2wsh" false "mainnet"
  = Return "bc1q58ec3588e0b95a77f9343f974c5eb40321e264903a46ae05b3b68fe68ec46d2c"
  /\ derive_multisig_bip_utils (lib := MockLib.lib) [] 0 0 "p2sh" true "testnet"
     = Return "c4e0ce72811550b1ec6caa124af510ee02c8cb7b53".
Proof. split; vm_compute; reflexivity. Qed.

(** ** Prefixes and version bytes *)

Lemma str_in_In (s : string) (l : list string) :
  str_in s l = true <-> In s l.
Proof.
  unfold str_in. rewrite existsb_exists. split.
  - intros (x & Hin & E). apply String.eqb_eq in E. now subst.
  - intros Hin. exists s. split; [exact Hin|apply String.eqb_refl].
Qed.

Lemma str_in_not_In (s : string) (l : list string) :
  str_in s l = false <-> ~ In s l.
Proof.
  rewrite <- str_in_In. destruct (str_in s l); split; congruence.
Qed.

Lemma substring_0_app (p rest : string) :
  substring 0 (String.length p) (p ++ rest)%string = p.
Proof.
  induction p as [|c p IH]; simpl.
  - now destruct rest.
  - now rewrite IH.
Qed.

Lemma substring_0_prefix (n : nat) (s : string) :
  exists rest, s = (substring 0 n s ++ rest)%string.
Proof.
  revert s; induction n as [|n IH]; intros s.
  - exists s. now destruct s.
  - destruct s as [|c s]; simpl; [now exists ""|].
    destruct (IH s) as (rest & E). exists rest. now rewrite <- E.
Qed.

Section SingleSig.
Context {lib : BipUtils}.

Lemma convert_xpub_canonical (xpub : string) (is_mainnet : bool) :
  In (substring 0 4 xpub) ["xpub"; "tpub"] ->
  convert_xpub xpub is_mainnet = Return xpub.
Proof.
  intros H. apply str_in_In in H. unfold convert_xpub. now rewrite H.
Qed.

Lemma convert_xpub_other (xpub : string) (is_mainnet : bool) (decoded : bytes) :
  ~ In (substring 0 4 xpub) ["xpub"; "tpub"] ->
  Base58Decoder_CheckDecode xpub = Return decoded ->
  convert_xpub xpub is_mainnet
  = Base58Encoder_CheckEncode
      ((if is_mainnet then MAINNET_VERSION else TESTNET_VERSION)
       ++ skipn 4 decoded).
Proof.
  intros H Hd. apply str_in_not_In in H. unfold convert_xpub.
  now rewrite H, Hd.
Qed.

(** C5.  Normalization of an extended key in a single-sig call.  For a
    key that Base58Check-decodes to 78 bytes and whose four-letter prefix
    is neither [xpub] nor [tpub], what is re-encoded has the version
    [04 88 B2 1E] when the prefix classifies as mainnet and [04 35 87 CF]
    otherwise, followed by the 74 decoded bytes after the version,
    unchanged.  For a key whose prefix is [xpub] or [tpub] the key string
    is left as it is. *)
Theorem xpub_normalization (xpub : string) (decoded : bytes) :
  Base58Decoder_CheckDecode xpub = Return decoded ->
  List.length decoded = 78%nat ->
  (~ In (substring 0 4 xpub) ["xpub"; "tpub"] ->
   exists converted,
     convert_xpub xpub (xpub_is_mainnet xpub)
     = Base58Encoder_CheckEncode converted
     /\ bytes_val (firstn 4 converted)
        = (if xpub_is_mainnet xpub then [0x04; 0x88; 0xB2; 0x1E]
           else [0x04; 0x35; 0x87; 0xCF])
     /\ skipn 4 converted = skipn 4 decoded
     /\ List.length (skipn 4 converted) = 74%nat
     /\ List.length converted = 78%nat)
  /\ (In (substring 0 4 xpub) ["xpub"; "tpub"] ->
      convert_xpub xpub (xpub_is_mainnet xpub) = Return xpub).
Proof.
  intros Hd Hlen. split; [|apply convert_xpub_canonical].
  intros Hp.
  exists ((if xpub_is_mainnet xpub then MAINNET_VERSION else TESTNET_VERSION)
          ++ skipn 4 decoded).
  split; [now apply convert_xpub_other|].
  assert (Hs : List.length (skipn 4 decoded) = 74%nat)
    by (rewrite length_skipn, Hlen; reflexivity).
  destruct (xpub_is_mainnet xpub); cbn [MAINNET_VERSION TESTNET_VERSION];
    (split; [reflexivity|]); (split; [reflexivity|]);
    (split; [exact Hs|]); rewrite length_app, Hs; reflexivity.
Qed.

(** C6.  Network classification of a single-sig call: the key counts as
    mainnet exactly when it starts with one of [xpub], [ypub], [zpub],
    [Ypub], [Zpub], in this spelling, and as testnet in every other case;
    that one flag selects the version bytes of the conversion and the
    network of the address encoder. *)
Theorem single_sig_network_classification (xpub : string) :
  (xpub_is_mainnet xpub = true <->
   exists p rest,
     In p ["xpub"; "ypub"; "zpub"; "Ypub"; "Zpub"]
     /\ xpub = (p ++ rest)%string)
  /\ (xpub_is_mainnet xpub = false <->
      forall p rest,
        In p ["xpub"; "ypub"; "zpub"; "Ypub"; "Zpub"] ->
        xpub <> (p ++ rest)%string)
  /\ forall index script_type change network,
      derive_single_sig_bip_utils xpub index script_type change network
      = (converted <- convert_xpub xpub (xpub_is_mainnet xpub) ;;
         pub_key <- derive_pub_key converted change index ;;
         encode_single_sig pub_key script_type (xpub_is_mainnet xpub)).
Proof.
  assert (Hiff : xpub_is_mainnet xpub = true <->
            exists p rest,
              In p ["xpub"; "ypub"; "zpub"; "Ypub"; "Zpub"]
              /\ xpub = (p ++ rest)%string).
  { unfold xpub_is_mainnet. rewrite str_in_In. split.
    - intros Hin. destruct (substring_0_prefix 4 xpub) as (rest & E).
      now exists (substring 0 4 xpub), rest.
    - intros (p & rest & Hin & ->).
      assert (Hp : String.length p = 4%nat)
        by (simpl in Hin; intuition (subst; reflexivity)).
      rewrite <- Hp, substring_0_app. exact Hin. }
  split; [exact Hiff|]. split; [|reflexivity].
  split.
  - intros Hf p rest Hin ->.
    assert (Ht : xpub_is_mainnet (p ++ rest) = true)
      by (apply Hiff; eauto).
    congruence.
  - intros Hn. apply Bool.not_true_is_false. intros E.
    apply Hiff in E. destruct E as (p & rest & Hin & E).
    now destruct (Hn p rest Hin).
Qed.

(** C8.  Taproot in a single-sig call: when the derived compressed key
    has 33 bytes, the key handed to [P2TRAddr.EncodeKey] is that key
    without its first byte, 32 bytes long, and the call returns what the
    encoder returns for it. *)
Theorem taproot_x_only_key
  (xpub : string) (index : Z) (change : bool) (network converted : string)
  (pub_key : bytes) :
  convert_xpub xpub (xpub_is_mainnet xpub) = Return converted ->
  derive_pub_key converted change index = Return pub_key ->
  List.length pub_key = 33%nat ->
  exists parity x_only_pub,
    pub_key = parity :: x_only_pub
    /\ List.length x_only_pub = 32%nat
    /\ derive_single_sig_bip_utils xpub index "taproot" change network
       = P2TRAddr_EncodeKey x_only_pub (coin_of (xpub_is_mainnet xpub)).
Proof.
  intros Hc Hk Hlen. destruct pub_key as [|parity x_only]; [discriminate|].
  exists parity, x_only. injection Hlen as Hlen.
  split; [reflexivity|]. split; [exact Hlen|].
  unfold derive_single_sig_bip_utils. rewrite Hc. cbn [bind]. rewrite Hk.
  cbn [bind]. unfold encode_single_sig. cbn [String.eqb Ascii.eqb Bool.eqb].
  cbn [skipn]. rewrite <- Hlen, firstn_all.
  now destruct (xpub_is_mainnet xpub).
Qed.

(** C9.  The [network] argument of a single-sig call does not reach the
    result: two calls that differ in it alone return the same. *)
Theorem single_sig_ignores_network_argument
  (xpub : string) (index : Z) (script_type : string) (change : bool)
  (network1 network2 : string) :
  derive_single_sig_bip_utils xpub index script_type change network1
  = derive_single_sig_bip_utils xpub index script_type change network2.
Proof. reflexivity. Qed.

End SingleSig.

Lemma xpub_normalization_witness :
  exists converted,
    convert_xpub (lib := MockLib.lib) MockLib.zpub_B
      (xpub_is_mainnet MockLib.zpub_B)
    = MockLib.CheckEncode converted
    /\ bytes_val (firstn 4 converted) = [0x04; 0x88; 0xB2; 0x1E]
    /\ skipn 4 converted
       = skipn 4 (MockLib.versions_payload MockLib.zpub_B)
    /\ List.length (skipn 4 converted) = 74%nat
    /\ List.length converted = 78%nat.
Proof.
  assert (Hd : Base58Decoder_CheckDecode (BipUtils := MockLib.lib) MockLib.zpub_B
               = Return (MockLib.versions_payload MockLib.zpub_B))
    by (vm_compute; reflexivity).
  assert (Hl : List.length (MockLib.versions_payload MockLib.zpub_B) = 78%nat)
    by (vm_compute; reflexivity).
  destruct (xpub_normalization (lib := MockLib.lib) MockLib.zpub_B _ Hd Hl)
    as [Hother _].
  apply Hother. vm_compute. intuition discriminate.
Defined.

Lemma taproot_x_only_key_witness :
  exists parity x_only_pub,
    MockLib.child_key MockLib.zpub_B "1/5" = parity :: x_only_pub
    /\ List.length x_only_pub = 32%nat
    /\ derive_single_sig_bip_utils (lib := MockLib.lib) MockLib.zpub_B 5
         "taproot" true "testnet"
       = MockLib.P2TR x_only_pub BitcoinMainNet.
Proof.
  apply (taproot_x_only_key (lib := MockLib.lib) MockLib.zpub_B 5 true
           "testnet" ("xpub" ++ MockLib.body "BBBBB")%string).
  - vm_compute. reflexivity.
  - vm_compute. reflexivity.
  - vm_compute. reflexivity.
Defined.

(** ** The network and the hashing of a multisig call *)

Section Multisig.
Context {lib : BipUtils}.

Lemma encode_multisig_p2wsh (redeem_script : bytes) (is_mainnet : bool) :
  encode_multisig redeem_script "p2wsh" is_mainnet
  = (hashlib_ripemd160 (hashlib_sha256 redeem_script) ;;;
     P2WSHAddr_EncodeKey (hashlib_sha256 redeem_script) (coin_of is_mainnet)).
Proof.
  unfold encode_multisig. cbn [String.eqb Ascii.eqb Bool.eqb].
  now destruct is_mainnet.
Qed.

(** C7.  P2WSH: a multisig call of script type [p2wsh] returns an
    address exactly when the keys derive, the redeem script is built,
    the (unused) RIPEMD-160 digest is available and
    [P2WSHAddr.EncodeKey] returns that address for the SHA-256 digest of
    the redeem script, hashed once; with a SHA-256 of 32 bytes the
    program has 32 bytes. *)
Theorem p2wsh_program_is_sha256
  (sha256_digest_size :
     forall data, List.length (hashlib_sha256 data) = 32%nat)
  (xpubs : list string) (threshold index : Z) (change : bool)
  (network addr : string) :
  derive_multisig_bip_utils xpubs threshold index "p2wsh" change network
    = Return addr <->
  exists keys redeem_script script_hash_160,
    derive_pub_keys xpubs (network =? "mainnet")%string change index []
      = Return keys
    /\ build_redeem_script threshold (list_sort keys) = Return redeem_script
    /\ hashlib_ripemd160 (hashlib_sha256 redeem_script)
       = Return script_hash_160
    /\ P2WSHAddr_EncodeKey (hashlib_sha256 redeem_script)
         (coin_of (network =? "mainnet")%string)
       = Return addr
    /\ List.length (hashlib_sha256 redeem_script) = 32%nat.
Proof.
  unfold derive_multisig_bip_utils. split.
  - intros H. bind_inv H. bind_inv H. rewrite encode_multisig_p2wsh in H.
    bind_inv H. exists v, v0, v1. auto.
  - intros (keys & s & h & Hk & Hs & Hh & He & _).
    rewrite Hk. cbn [bind]. rewrite Hs. cbn [bind].
    rewrite encode_multisig_p2wsh, Hh. exact He.
Qed.

Lemma cosigner_key_calls (is_mainnet change : bool) (index : Z)
  (xpub : string) (pub_key : bytes) :
  cosigner_key is_mainnet change index xpub = Return pub_key <->
  cosigner_derives (if is_mainnet then [x04; x88; xb2; x1e]
                    else [x04; x35; x87; xcf]) change index xpub pub_key.
Proof.
  unfold cosigner_key, cosigner_derives, convert_xpub. split.
  - intros H. bind_inv H. exists v. split; [|exact H].
    destruct (str_in (substring 0 4 xpub) ["xpub"; "tpub"]) eqn:Hp;
      cbn [negb] in E.
    + left. split; [now apply str_in_In|]. now injection E.
    + right. split; [now apply str_in_not_In|]. bind_inv E.
      exists v0. split; [exact E0|]. now destruct is_mainnet.
  - intros (converted & [[Hp ->]|[Hp (decoded & Hd & He)]] & Hk).
    + apply str_in_In in Hp. rewrite Hp. cbn [negb bind]. exact Hk.
    + apply str_in_not_In in Hp. rewrite Hp, Hd. cbn [negb bind].
      destruct is_mainnet; unfold MAINNET_VERSION, TESTNET_VERSION;
        rewrite He; cbn [bind]; exact Hk.
Qed.

Lemma encode_multisig_calls (redeem_script : bytes) (script_type : string)
  (is_mainnet : bool) (addr : string) :
  encode_multisig redeem_script script_type is_mainnet = Return addr <->
  multisig_address (if is_mainnet then BitcoinMainNet else BitcoinTestNet)
    (if is_mainnet then [x05] else [xc4]) script_type redeem_script addr.
Proof.
  unfold encode_multisig, multisig_address. split.
  - intros H. bind_inv H. exists v. split; [exact E|].
    destruct (String.eqb_spec script_type "p2sh") as [->|_].
    { left. split; [reflexivity|]. now destruct is_mainnet. }
    destruct (String.eqb_spec script_type "p2wsh") as [->|_].
    { right; left. split; [reflexivity|]. now destruct is_mainnet. }
    destruct (String.eqb_spec script_type "p2sh_p2wsh") as [->|_];
      [|discriminate].
    right; right. split; [reflexivity|]. bind_inv H. exists v0.
    split; [exact E0|]. now destruct is_mainnet.
  - intros (h & Hh & [[-> He]|[[-> He]|[-> (wh & Hw & He)]]]);
      rewrite Hh; cbn [bind String.eqb Ascii.eqb Bool.eqb].
    + now destruct is_mainnet.
    + now destruct is_mainnet.
    + rewrite Hw. cbn [bind]. now destruct is_mainnet.
Qed.

(** C10.  The network of a multisig call is the [network] argument and
    nothing else.  When the argument is the string [mainnet], the call
    returns an address exactly when every cosigner's key derives, each key
    whose prefix is neither [xpub] nor [tpub] being re-encoded with
    [04 88 B2 1E], whatever its own prefix, and the redeem script of the
    sorted keys is encoded for [BitcoinMainNet] with the P2SH version byte
    [05].  For every other argument the same holds with [04 35 87 CF],
    [BitcoinTestNet] and [C4]. *)
Theorem multisig_network_from_argument
  (xpubs : list string) (threshold index : Z) (script_type : string)
  (change : bool) (network addr : string) :
  (network = "mainnet" ->
   (derive_multisig_bip_utils xpubs threshold index script_type change network
      = Return addr <->
    exists pub_keys redeem_script,
      Forall2 (cosigner_derives [x04; x88; xb2; x1e] change index)
        xpubs pub_keys
      /\ build_redeem_script threshold (list_sort pub_keys)
         = Return redeem_script
      /\ multisig_address BitcoinMainNet [x05] script_type redeem_script addr))
  /\ (network <> "mainnet" ->
      (derive_multisig_bip_utils xpubs threshold index script_type change
         network
         = Return addr <->
       exists pub_keys redeem_script,
         Forall2 (cosigner_derives [x04; x35; x87; xcf] change index)
           xpubs pub_keys
         /\ build_redeem_script threshold (list_sort pub_keys)
            = Return redeem_script
         /\ multisig_address BitcoinTestNet [xc4] script_type redeem_script
              addr)).
Proof.
  assert (G : forall m,
    (network =? "mainnet")%string = m ->
    (derive_multisig_bip_utils xpubs threshold index script_type change network
       = Return addr <->
     exists pub_keys redeem_script,
       Forall2 (cosigner_derives (if m then [x04; x88; xb2; x1e]
                                  else [x04; x35; x87; xcf]) change index)
         xpubs pub_keys
       /\ build_redeem_script threshold (list_sort pub_keys)
          = Return redeem_script
       /\ multisig_address (if m then BitcoinMainNet else BitcoinTestNet)
            (if m then [x05] else [xc4]) script_type redeem_script addr)).
  { intros m Hm. unfold derive_multisig_bip_utils. rewrite Hm. split.
    - intros H. bind_inv H. bind_inv H.
      apply derive_pub_keys_Return in E. destruct E as (ks & HF & ->).
      exists ks, v0. split; [|split; [exact E0|now apply encode_multisig_calls]].
      eapply Forall2_impl; [|exact HF].
      intros x k Hk. now apply cosigner_key_calls.
    - intros (ks & s & HF & Hs & He).
      assert (Hk : derive_pub_keys xpubs m change index [] = Return ks).
      { apply derive_pub_keys_Return. exists ks. split; [|reflexivity].
        eapply Forall2_impl; [|exact HF].
        intros x k Hk. now apply cosigner_key_calls. }
      rewrite Hk. cbn [bind]. rewrite Hs. cbn [bind].
      now apply encode_multisig_calls. }
  split.
  - intros ->. apply (G true). reflexivity.
  - intros Hn. apply (G false). now apply String.eqb_neq.
Qed.

End Multisig.

Lemma mock_squeeze_length (n : nat) (h : N) :
  List.length (MockLib.squeeze n h) = n.
Proof. revert h; induction n as [|n IH]; intros h; simpl; [|rewrite IH]; reflexivity. Qed.

Lemma p2wsh_program_is_sha256_witness :
  exists keys redeem_script script_hash_160,
    derive_pub_keys (lib := MockLib.lib)
      [MockLib.xpub_A; MockLib.zpub_B; MockLib.Zpub_D] true false 0 []
      = Return keys
    /\ build_redeem_script 2 (list_sort keys) = Return redeem_script
    /\ MockLib.ripemd160 (MockLib.sha256 redeem_script)
       = Return script_hash_160
    /\ MockLib.P2WSH (MockLib.sha256 redeem_script) BitcoinMainNet
       = Return "bc1q2d4dc47db9594b1a9fb536e41551ddcc003473b23e741557aafb99db6def3d09"
    /\ List.length (MockLib.sha256 redeem_script) = 32%nat.
Proof.
  apply (p2wsh_program_is_sha256 (lib := MockLib.lib)
           (fun data => mock_squeeze_length 32 _)
           [MockLib.xpub_A; MockLib.zpub_B; MockLib.Zpub_D] 2 0 false "mainnet").
  vm_compute. reflexivity.
Defined.

(** A call for [mainnet] with a key of the testnet family ([vpub]) and a
    [zpub]: both are re-encoded with [04 88 B2 1E] and the address is
    encoded for mainnet. *)
Lemma multisig_network_from_argument_witness :
  exists pub_keys redeem_script,
    Forall2 (cosigner_derives (lib := MockLib.lib) [x04; x88; xb2; x1e] false 0)
      [MockLib.vpub_E; MockLib.zpub_B] pub_keys
    /\ build_redeem_script 2 (list_sort pub_keys) = Return redeem_script
    /\ multisig_address (lib := MockLib.lib) BitcoinMainNet [x05] "p2sh"
         redeem_script "054f2ea56d3602d6e9784151ccfe84f35f17f07833".
Proof.
  apply (proj1 (multisig_network_from_argument (lib := MockLib.lib)
                  [MockLib.vpub_E; MockLib.zpub_B] 2 0 "p2sh" false "mainnet"
                  "054f2ea56d3602d6e9784151ccfe84f35f17f07833")
               eq_refl).
  vm_compute. reflexivity.
Defined.

(** A key of the testnet family ([vpub]) in a call for [mainnet] is
    re-encoded as an [xpub] and yields a mainnet address. *)
Lemma multisig_testnet_prefix_mainnet_argument :
  derive_multisig_bip_utils (lib := MockLib.lib) [MockLib.vpub_E] 1 0 "p2wsh"
    false "mainnet"
  = Return "bc1q742510b672674687c76d304b181b167847f21b02a28c35cd21e7dafeaadae674"
  /\ derive_single_sig_bip_utils (lib := MockLib.lib) MockLib.vpub_E 0
       "native_segwit" false "mainnet"
     = derive_single_sig_bip_utils (lib := MockLib.lib) MockLib.vpub_E 0
         "native_segwit" false "testnet".
Proof. split; [vm_compute; reflexivity|reflexivity]. Qed.

(** ** More on the sort and on the redeem script *)

Lemma insert_sorted_last (k : bytes) (acc : list bytes) :
  Forall (fun a => bytes_le a k) acc -> insert_sorted k acc = acc ++ [k].
Proof.
  induction 1 as [|a acc Ha HF IH]; simpl; [reflexivity|].
  unfold bytes_le in Ha. now rewrite Ha, IH.
Qed.

Lemma StronglySorted_app_le (acc l : list bytes) (k : bytes) :
  StronglySorted bytes_le (acc ++ k :: l) -> Forall (fun a => bytes_le a k) acc.
Proof.
  induction acc as [|a acc IH]; simpl; intros H; [constructor|].
  apply StronglySorted_inv in H. destruct H as [Hs Ha]. constructor.
  - apply Forall_app in Ha. destruct Ha as [_ Ha]. now apply Forall_inv in Ha.
  - now apply IH.
Qed.

Lemma fold_insert_sorted_input (l acc : list bytes) :
  StronglySorted bytes_le (acc ++ l) ->
  fold_left (fun acc k => insert_sorted k acc) l acc = acc ++ l.
Proof.
  revert acc; induction l as [|k l IH]; intros acc H; simpl.
  - now rewrite app_nil_r.
  - rewrite (insert_sorted_last k acc (StronglySorted_app_le _ _ _ H)).
    rewrite IH; rewrite <- app_assoc; [reflexivity|exact H].
Qed.

(** [pub_keys.sort()] (line 148) keeps every derived key, as often as it
    was derived, puts the keys in ascending order, and its result is the
    only ascending arrangement of them. *)
Theorem sort_is_the_ascending_arrangement (pub_keys : list bytes) :
  Permutation pub_keys (list_sort pub_keys)
  /\ Sorted bytes_le (list_sort pub_keys)
  /\ forall arranged,
      Permutation pub_keys arranged -> Sorted bytes_le arranged ->
      arranged = list_sort pub_keys.
Proof.
  split; [apply list_sort_perm|]. split; [apply list_sort_Sorted|].
  intros arranged HP HS.
  rewrite (list_sort_Permutation _ _ HP). unfold list_sort.
  symmetry. apply (fold_insert_sorted_input arranged []).
  apply Sorted_StronglySorted; [|exact HS].
  intros a b c. apply bytes_le_trans.
Qed.

Lemma flat_keys_length (keys : list bytes) :
  Forall (fun pk => len pk = 33) keys ->
  len (flat_map (fun pk => len pk :: bytes_val pk) keys) = 34 * len keys.
Proof.
  unfold len. induction 1 as [|k keys Hk HF IH]; [reflexivity|].
  cbn [flat_map]. rewrite length_app. cbn [List.length].
  assert (E : List.length (bytes_val k) = List.length k) by apply length_map.
  cbv beta in Hk. lia.
Qed.

(** The size of the redeem script (lines 152-156): with [M] keys of 33
    bytes each it has [3 + 34 * M] bytes. *)
Theorem redeem_script_length (threshold : Z) (pub_keys : list bytes)
  (redeem_script : bytes) :
  build_redeem_script threshold pub_keys = Return redeem_script ->
  Forall (fun pk => len pk = 33) pub_keys ->
  len redeem_script = 3 + 34 * len pub_keys.
Proof.
  intros H HF. apply build_redeem_script_val in H.
  assert (E : len redeem_script = len (bytes_val redeem_script))
    by (unfold len, bytes_val; now rewrite length_map).
  rewrite E, H. unfold redeem_script_layout.
  pose proof (flat_keys_length pub_keys HF) as HL. unfold len in *.
  cbn [List.length]. rewrite length_app. cbn [List.length]. lia.
Qed.

Lemma app_same_length_inv {A : Type} (a b x y : list A) :
  List.length a = List.length b -> a ++ x = b ++ y -> a = b /\ x = y.
Proof.
  revert b; induction a as [|h a IH]; intros [|h' b]; simpl; try discriminate.
  - auto.
  - intros [= Hl] [= -> E]. destruct (IH b Hl E) as [-> ->]. auto.
Qed.

Lemma pushed_keys_inj (keys keys' : list bytes) (n n' : Z) :
  flat_map (fun pk => len pk :: bytes_val pk) keys ++ [n; 0xAE]
  = flat_map (fun pk => len pk :: bytes_val pk) keys' ++ [n'; 0xAE] ->
  keys = keys' /\ n = n'.
Proof.
  revert keys'; induction keys as [|k keys IH]; intros [|k' keys'];
    cbn [flat_map app].
  - intros [= ->]. auto.
  - intros H. apply (f_equal (@List.length Z)) in H. exfalso.
    cbn [List.length] in H. rewrite <- app_assoc, !length_app in H.
    cbn [List.length] in H. lia.
  - intros H. apply (f_equal (@List.length Z)) in H. exfalso.
    cbn [List.length] in H. rewrite <- app_assoc, !length_app in H.
    cbn [List.length] in H. lia.
  - rewrite <- !app_assoc. intros [= Hl H].
    apply app_same_length_inv in H.
    + destruct H as [Hk H]. apply bytes_val_inj in Hk. subst k'.
      destruct (IH keys' H) as [-> ->]. auto.
    + unfold bytes_val. rewrite !length_map. unfold len in Hl. lia.
Qed.

(** The redeem script tells the threshold and the keys: two calls of
    lines 148-156 that build the same script had the same threshold and
    the same keys up to order. *)
Theorem redeem_script_determines_threshold_and_keys
  (threshold threshold' : Z) (pub_keys pub_keys' : list bytes)
  (redeem_script : bytes) :
  build_redeem_script threshold (list_sort pub_keys) = Return redeem_script ->
  build_redeem_script threshold' (list_sort pub_keys') = Return redeem_script ->
  threshold = threshold' /\ Permutation pub_keys pub_keys'.
Proof.
  intros H H'. apply build_redeem_script_val in H, H'.
  rewrite H in H'. unfold redeem_script_layout in H'.
  pose proof (f_equal (hd 0) H') as HT. pose proof (f_equal (@tl Z) H') as HK.
  cbn [hd tl] in HT, HK. split; [lia|].
  apply pushed_keys_inj in HK. destruct HK as [HK _].
  rewrite (list_sort_perm pub_keys), (list_sort_perm pub_keys'), HK.
  reflexivity.
Qed.

Lemma redeem_script_length_witness :
  exists redeem_script,
    build_redeem_script 2
      [MockLib.child_key MockLib.xpub_A "0/0";
       MockLib.child_key MockLib.zpub_B "0/0"]
    = Return redeem_script
    /\ len redeem_script
       = 3 + 34 * len [MockLib.child_key MockLib.xpub_A "0/0";
                       MockLib.child_key MockLib.zpub_B "0/0"].
Proof.
  eexists. split; [vm_compute; reflexivity|].
  apply (redeem_script_length 2).
  - vm_compute. reflexivity.
  - repeat constructor.
Defined.

Lemma redeem_script_determines_threshold_and_keys_witness :
  2 = 2
  /\ Permutation
       [MockLib.child_key MockLib.xpub_A "0/0";
        MockLib.child_key MockLib.zpub_B "0/0"]
       [MockLib.child_key MockLib.zpub_B "0/0";
        MockLib.child_key MockLib.xpub_A "0/0"].
Proof.
  destruct (build_redeem_script 2
              (list_sort [MockLib.child_key MockLib.xpub_A "0/0";
                          MockLib.child_key MockLib.zpub_B "0/0"]))
    as [s|e] eqn:E; [|vm_compute in E; discriminate].
  apply (redeem_script_determines_threshold_and_keys 2 2 _ _ s E).
  rewrite <- E. vm_compute. reflexivity.
Defined.

(** ** More on the single-sig call *)





Section SingleSigMore.
Context {lib : BipUtils}.

(** A script type other than the four of lines 85-113 never gets an
    address: whatever the key, the call raises, and once the key is
    converted and derived what it raises is the [ValueError] of line 116
    with the script type in its message. *)
Theorem single_sig_unknown_script_type
  (xpub : string) (index : Z) (script_type : string) (change : bool)
  (network : string) :
  ~ In script_type ["legacy"; "nested_segwit"; "native_segwit"; "taproot"] ->
  derive_single_sig_bip_utils xpub index script_type change network
  = (converted <- convert_xpub xpub (xpub_is_mainnet xpub) ;;
     derive_pub_key converted change index ;;;
     Raise (ValueError ("Unknown script type: " ++ script_type)%string))
  /\ forall addr,
      derive_single_sig_bip_utils xpub index script_type change network
      <> Return addr.
Proof.
  intros Hst.
  assert (E : forall pk m, encode_single_sig pk script_type m
                = Raise (ValueError ("Unknown script type: " ++ script_type)%string)).
  { intros pk m. unfold encode_single_sig.
    repeat match goal with
    | |- context [String.eqb script_type ?s] =>
        destruct (String.eqb_spec script_type s) as [->|_];
        [exfalso; apply Hst; simpl; tauto|]
    end. reflexivity. }
  assert (Eq : derive_single_sig_bip_utils xpub index script_type change network
    = (converted <- convert_xpub xpub (xpub_is_mainnet xpub) ;;
       derive_pub_key converted change index ;;;
       Raise (ValueError ("Unknown script type: " ++ script_type)%string))).
  { unfold derive_single_sig_bip_utils.
    destruct (convert_xpub xpub _); [cbn [bind]|reflexivity].
    destruct (derive_pub_key _ _ _); [cbn [bind]|reflexivity]. apply E. }
  split; [exact Eq|]. intros addr H. rewrite Eq in H.
  bind_inv H. bind_inv H. discriminate.
Qed.


End SingleSigMore.

Lemma single_sig_unknown_script_type_witness :
  derive_single_sig_bip_utils (lib := MockLib.lib) MockLib.xpub_A 0 "Legacy"
    false "mainnet"
  = (converted <- convert_xpub (lib := MockLib.lib) MockLib.xpub_A
                    (xpub_is_mainnet MockLib.xpub_A) ;;
     derive_pub_key (lib := MockLib.lib) converted false 0 ;;;
     Raise (ValueError "Unknown script type: Legacy"))
  /\ forall addr,
      derive_single_sig_bip_utils (lib := MockLib.lib) MockLib.xpub_A 0
        "Legacy" false "mainnet"
      <> Return addr.
Proof.
  apply (single_sig_unknown_script_type (lib := MockLib.lib) MockLib.xpub_A 0
           "Legacy" false "mainnet").
  simpl. intuition discriminate.
Defined.


(** ** More on the multisig call *)

Section MultisigMore.
Context {lib : BipUtils}.

Lemma derive_pub_keys_first_failure (good : list string) (keys : list bytes)
  (bad : string) (rest : list string) (m c : bool) (i : Z) (e : exn)
  (acc : list bytes) :
  Forall2 (fun x k => cosigner_key m c i x = Return k) good keys ->
  cosigner_key m c i bad = Raise e ->
  derive_pub_keys (good ++ bad :: rest) m c i acc = Raise e.
Proof.
  intros HF Hb. revert acc.
  induction HF as [|x k xs ks Hk HF IH]; intros acc; cbn [app derive_pub_keys].
  - unfold cosigner_key in Hb.
    destruct (convert_xpub bad m) as [x|e']; cbn [bind] in *;
      [|now injection Hb as ->].
    now rewrite Hb.
  - unfold cosigner_key in Hk. bind_inv Hk. rewrite E. cbn [bind].
    rewrite Hk. cbn [bind]. apply IH.
Qed.

(** The first xpub that fails decides the outcome (lines 130-145): when
    the keys before it derive and it raises, the call raises the same,
    whatever the threshold, the script type and the xpubs after it. *)
Theorem multisig_first_bad_xpub_raises
  (good : list string) (keys : list bytes) (bad : string) (rest : list string)
  (threshold index : Z) (script_type : string) (change : bool)
  (network : string) (e : exn) :
  Forall2 (fun x k => cosigner_key (network =? "mainnet")%string change index x
                      = Return k) good keys ->
  cosigner_key (network =? "mainnet")%string change index bad = Raise e ->
  derive_multisig_bip_utils (good ++ bad :: rest) threshold index script_type
    change network
  = Raise e.
Proof.
  intros HF Hb. unfold derive_multisig_bip_utils.
  now rewrite (derive_pub_keys_first_failure _ _ _ _ _ _ _ _ _ HF Hb).
Qed.

(** Every [network] other than the exact string [mainnet] is testnet
    (line 125): two such arguments give the same outcome. *)
Theorem multisig_network_other_than_mainnet
  (xpubs : list string) (threshold index : Z) (script_type : string)
  (change : bool) (network network' : string) :
  network <> "mainnet" -> network' <> "mainnet" ->
  derive_multisig_bip_utils xpubs threshold index script_type change network
  = derive_multisig_bip_utils xpubs threshold index script_type change network'.
Proof.
  intros H H'. unfold derive_multisig_bip_utils.
  apply String.eqb_neq in H, H'. now rewrite H, H'.
Qed.

Lemma derive_pub_keys_canonical (xpubs : list string) (m m' c : bool) (i : Z)
  (acc : list bytes) :
  Forall (fun xpub => In (substring 0 4 xpub) ["xpub"; "tpub"]) xpubs ->
  derive_pub_keys xpubs m c i acc = derive_pub_keys xpubs m' c i acc.
Proof.
  intros HF. revert acc.
  induction HF as [|x xs Hx HF IH]; intros acc; cbn [derive_pub_keys];
    [reflexivity|].
  rewrite !(convert_xpub_canonical x _ Hx). cbn [bind].
  destruct (derive_pub_key x c i); cbn [bind]; [apply IH|reflexivity].
Qed.

(** Keys that start with [xpub] or [tpub] are parsed as they are (line
    133), so for them the network does not reach the keys: a mainnet and a
    testnet call derive the same keys and hash the same redeem script. *)
Theorem multisig_canonical_keys_ignore_network
  (xpubs : list string) (threshold index : Z) (change : bool)
  (is_mainnet is_mainnet' : bool) :
  Forall (fun xpub => In (substring 0 4 xpub) ["xpub"; "tpub"]) xpubs ->
  (pub_keys <- derive_pub_keys xpubs is_mainnet change index [] ;;
   build_redeem_script threshold (list_sort pub_keys))
  = (pub_keys <- derive_pub_keys xpubs is_mainnet' change index [] ;;
     build_redeem_script threshold (list_sort pub_keys)).
Proof.
  intros HF.
  now rewrite (derive_pub_keys_canonical xpubs is_mainnet is_mainnet' _ _ _ HF).
Qed.

Lemma encode_multisig_p2sh (redeem_script : bytes) (is_mainnet : bool) :
  encode_multisig redeem_script "p2sh" is_mainnet
  = (script_hash_160 <- hashlib_ripemd160 (hashlib_sha256 redeem_script) ;;
     P2SHAddr_EncodeKey script_hash_160 (coin_of is_mainnet)
       (P2SH_net_ver (if is_mainnet then [x05] else [xc4]))).
Proof.
  unfold encode_multisig. cbn [String.eqb Ascii.eqb Bool.eqb].
  now destruct is_mainnet.
Qed.

Lemma encode_multisig_p2sh_p2wsh (redeem_script : bytes) (is_mainnet : bool) :
  encode_multisig redeem_script "p2sh_p2wsh" is_mainnet
  = (hashlib_ripemd160 (hashlib_sha256 redeem_script) ;;;
     wp_hash <- hashlib_ripemd160
                  (hashlib_sha256 ([x00; x20] ++ hashlib_sha256 redeem_script)) ;;
     P2SHAddr_EncodeKey wp_hash (coin_of is_mainnet)
       (P2SH_net_ver (if is_mainnet then [x05] else [xc4]))).
Proof.
  unfold encode_multisig. cbn [String.eqb Ascii.eqb Bool.eqb].
  now destruct is_mainnet.
Qed.

(** P2SH (lines 162-167): the call returns an address exactly when
    [P2SHAddr.EncodeKey] returns it for RIPEMD-160 of SHA-256 of the
    redeem script, with the version byte [05] on mainnet and [C4] on
    testnet. *)
Theorem multisig_p2sh_is_hash160
  (xpubs : list string) (threshold index : Z) (change : bool)
  (network addr : string) :
  derive_multisig_bip_utils xpubs threshold index "p2sh" change network
    = Return addr <->
  exists keys redeem_script script_hash_160,
    derive_pub_keys xpubs (network =? "mainnet")%string change index []
      = Return keys
    /\ build_redeem_script threshold (list_sort keys) = Return redeem_script
    /\ hashlib_ripemd160 (hashlib_sha256 redeem_script)
       = Return script_hash_160
    /\ P2SHAddr_EncodeKey script_hash_160
         (coin_of (network =? "mainnet")%string)
         (P2SH_net_ver (if (network =? "mainnet")%string then [x05] else [xc4]))
       = Return addr.
Proof.
  unfold derive_multisig_bip_utils. split.
  - intros H. bind_inv H. bind_inv H. rewrite encode_multisig_p2sh in H.
    bind_inv H. exists v, v0, v1. auto.
  - intros (keys & s & h & Hk & Hs & Hh & He).
    rewrite Hk. cbn [bind]. rewrite Hs. cbn [bind].
    rewrite encode_multisig_p2sh, Hh. exact He.
Qed.

(** P2SH-P2WSH (lines 176-185): what is hashed for the P2SH address is the
    witness program [00 20 || SHA256(redeem script)], 34 bytes for a
    32-byte digest, that is [OP_0] and the push of the program that the
    [p2wsh] type encodes; the address is the P2SH encoding of its
    RIPEMD-160 of SHA-256. *)
Theorem multisig_p2sh_p2wsh_wraps_witness_program
  (sha256_digest_size :
     forall data, List.length (hashlib_sha256 data) = 32%nat)
  (xpubs : list string) (threshold index : Z) (change : bool)
  (network addr : string) :
  derive_multisig_bip_utils xpubs threshold index "p2sh_p2wsh" change network
    = Return addr <->
  exists keys redeem_script script_hash_160 witness_program wp_hash,
    derive_pub_keys xpubs (network =? "mainnet")%string change index []
      = Return keys
    /\ build_redeem_script threshold (list_sort keys) = Return redeem_script
    /\ hashlib_ripemd160 (hashlib_sha256 redeem_script)
       = Return script_hash_160
    /\ witness_program = [x00; x20] ++ hashlib_sha256 redeem_script
    /\ List.length witness_program = 34%nat
    /\ hashlib_ripemd160 (hashlib_sha256 witness_program) = Return wp_hash
    /\ P2SHAddr_EncodeKey wp_hash (coin_of (network =? "mainnet")%string)
         (P2SH_net_ver (if (network =? "mainnet")%string then [x05] else [xc4]))
       = Return addr.
Proof.
  unfold derive_multisig_bip_utils. split.
  - intros H. bind_inv H. bind_inv H. rewrite encode_multisig_p2sh_p2wsh in H.
    bind_inv H. bind_inv H.
    exists v, v0, v1, ([x00; x20] ++ hashlib_sha256 v0), v2.
    repeat split; auto.
    cbn [app List.length]. now rewrite sha256_digest_size.
  - intros (keys & s & h & wp & wh & Hk & Hs & Hh & -> & _ & Hw & He).
    rewrite Hk. cbn [bind]. rewrite Hs. cbn [bind].
    rewrite encode_multisig_p2sh_p2wsh, Hh. cbn [bind]. rewrite Hw. exact He.
Qed.

(** A script type other than the three of lines 162-185 never gets an
    address; the [ValueError] of line 188 comes last, after the keys, the
    redeem script and both digests of lines 159-160. *)
Theorem multisig_unknown_script_type
  (xpubs : list string) (threshold index : Z) (script_type : string)
  (change : bool) (network : string) :
  ~ In script_type ["p2sh"; "p2wsh"; "p2sh_p2wsh"] ->
  derive_multisig_bip_utils xpubs threshold index script_type change network
  = (pub_keys <- derive_pub_keys xpubs (network =? "mainnet")%string change
                   index [] ;;
     redeem_script <- build_redeem_script threshold (list_sort pub_keys) ;;
     hashlib_ripemd160 (hashlib_sha256 redeem_script) ;;;
     Raise (ValueError ("Unknown multisig script type: " ++ script_type)%string))
  /\ forall addr,
      derive_multisig_bip_utils xpubs threshold index script_type change network
      <> Return addr.
Proof.
  intros Hst.
  assert (E : forall s m, encode_multisig s script_type m
    = (hashlib_ripemd160 (hashlib_sha256 s) ;;;
       Raise (ValueError ("Unknown multisig script type: " ++ script_type)%string))).
  { intros s m. unfold encode_multisig.
    repeat match goal with
    | |- context [String.eqb script_type ?s] =>
        destruct (String.eqb_spec script_type s) as [->|_];
        [exfalso; apply Hst; simpl; tauto|]
    end. reflexivity. }
  assert (Eq : derive_multisig_bip_utils xpubs threshold index script_type
                 change network
    = (pub_keys <- derive_pub_keys xpubs (network =? "mainnet")%string change
                     index [] ;;
       redeem_script <- build_redeem_script threshold (list_sort pub_keys) ;;
       hashlib_ripemd160 (hashlib_sha256 redeem_script) ;;;
       Raise (ValueError ("Unknown multisig script type: " ++ script_type)%string))).
  { unfold derive_multisig_bip_utils.
    destruct (derive_pub_keys _ _ _ _ _); [cbn [bind]|reflexivity].
    destruct (build_redeem_script _ _); [cbn [bind]|reflexivity]. apply E. }
  split; [exact Eq|]. intros addr H. rewrite Eq in H.
  bind_inv H. bind_inv H. bind_inv H. discriminate.
Qed.

End MultisigMore.

Lemma multisig_first_bad_xpub_raises_witness :
  derive_multisig_bip_utils (lib := MockLib.lib)
    ([MockLib.xpub_A] ++ "bogus" :: [MockLib.zpub_B]) 99 0 "nonsense" false
    "mainnet"
  = Raise (ValueError "Invalid checksum").
Proof.
  apply (multisig_first_bad_xpub_raises (lib := MockLib.lib) [MockLib.xpub_A]
           [MockLib.child_key MockLib.xpub_A "0/0"]).
  - constructor; [vm_compute; reflexivity|constructor].
  - vm_compute. reflexivity.
Defined.

Lemma multisig_network_other_than_mainnet_witness :
  derive_multisig_bip_utils (lib := MockLib.lib) [MockLib.zpub_B] 1 0 "p2wsh"
    false "Mainnet"
  = derive_multisig_bip_utils (lib := MockLib.lib) [MockLib.zpub_B] 1 0 "p2wsh"
      false "testnet".
Proof.
  apply (multisig_network_other_than_mainnet (lib := MockLib.lib));
    discriminate.
Defined.

Lemma multisig_canonical_keys_ignore_network_witness :
  (pub_keys <- derive_pub_keys (lib := MockLib.lib)
                 [MockLib.xpub_A; MockLib.xpub_A] true false 0 [] ;;
   build_redeem_script 2 (list_sort pub_keys))
  = (pub_keys <- derive_pub_keys (lib := MockLib.lib)
                   [MockLib.xpub_A; MockLib.xpub_A] false false 0 [] ;;
     build_redeem_script 2 (list_sort pub_keys)).
Proof.
  apply (multisig_canonical_keys_ignore_network (lib := MockLib.lib)).
  repeat constructor.
Defined.

Lemma multisig_p2sh_p2wsh_wraps_witness_program_witness :
  exists keys redeem_script script_hash_160 witness_program wp_hash,
    derive_pub_keys (lib := MockLib.lib) [MockLib.xpub_A; MockLib.zpub_B]
      false false 0 [] = Return keys
    /\ build_redeem_script 2 (list_sort keys) = Return redeem_script
    /\ MockLib.ripemd160 (MockLib.sha256 redeem_script)
       = Return script_hash_160
    /\ witness_program = [x00; x20] ++ MockLib.sha256 redeem_script
    /\ List.length witness_program = 34%nat
    /\ MockLib.ripemd160 (MockLib.sha256 witness_program) = Return wp_hash
    /\ MockLib.P2SH wp_hash BitcoinTestNet (P2SH_net_ver [xc4])
       = Return "c410b54687b1fd6606e7e7f1c634482a6a13c8b230".
Proof.
  apply (multisig_p2sh_p2wsh_wraps_witness_program (lib := MockLib.lib)
           (fun data => mock_squeeze_length 32 _)
           [MockLib.xpub_A; MockLib.zpub_B] 2 0 false "testnet").
  vm_compute. reflexivity.
Defined.

Lemma multisig_unknown_script_type_witness :
  derive_multisig_bip_utils (lib := MockLib.lib) [MockLib.xpub_A] 1 0 "P2SH"
    false "mainnet"
  = (pub_keys <- derive_pub_keys (lib := MockLib.lib) [MockLib.xpub_A] true
                   false 0 [] ;;
     redeem_script <- build_redeem_script 1 (list_sort pub_keys) ;;
     MockLib.ripemd160 (MockLib.sha256 redeem_script) ;;;
     Raise (ValueError "Unknown multisig script type: P2SH"))
  /\ forall addr,
      derive_multisig_bip_utils (lib := MockLib.lib) [MockLib.xpub_A] 1 0
        "P2SH" false "mainnet"
      <> Return addr.
Proof.
  apply (multisig_unknown_script_type (lib := MockLib.lib) [MockLib.xpub_A] 1 0
           "P2SH" false "mainnet").
  simpl. intuition discriminate.
Defined.

(** ** The command line *)

Lemma char_lower_letter (c : ascii) :
  (char_lower c = "t" -> In c ["t"; "T"])%char
  /\ (char_lower c = "r" -> In c ["r"; "R"])%char
  /\ (char_lower c = "u" -> In c ["u"; "U"])%char
  /\ (char_lower c = "e" -> In c ["e"; "E"])%char.
Proof.
  destruct c as [[] [] [] [] [] [] [] []]; vm_compute;
    repeat split; intros H; try discriminate H; auto.
Qed.

Lemma str_lower_true (s : string) : str_lower s = "true" <-> spells_true s.
Proof.
  split.
  - destruct s as [|t [|r [|u [|e [|x s]]]]]; try discriminate.
    cbn [str_lower]. intros [= Ht Hr Hu He].
    exists t, r, u, e. split; [reflexivity|].
    repeat split; now apply char_lower_letter.
  - intros (t & r & u & e & -> & Ht & Hr & Hu & He). cbn [str_lower].
    simpl in Ht, Hr, Hu, He.
    destruct Ht as [<-|[<-|[]]], Hr as [<-|[<-|[]]], Hu as [<-|[<-|[]]],
      He as [<-|[<-|[]]]; reflexivity.
Qed.

Section MainFacts.
Context {lib : BipUtils} {rt : PyRuntime}.

(** [main] (lines 191-249) prints exactly one JSON object and ends with
    status 0 or 1; the status is 1 exactly when the object is an
    [{"error": ...}]. *)
Theorem main_prints_one_object (HAS_BIP_UTILS : bool) (argv : list string) :
  exists object status,
    main HAS_BIP_UTILS argv = ([object], status)
    /\ (status = 0 \/ status = 1)
    /\ (status = 1 <-> exists msg, object = Obj_error msg).
Proof.
  assert (P : forall r, exists object status,
             print_result r = ([object], status)
             /\ (status = 0 \/ status = 1)
             /\ (status = 1 <-> exists msg, object = Obj_error msg)).
  { intros [a|e]; cbn [print_result]; do 2 eexists;
      (split; [reflexivity|]); (split; [auto|]); split; try discriminate; eauto.
    intros (msg & [=]). }
  assert (E : forall msg, exists object status,
             ([Obj_error msg], 1) = ([object], status)
             /\ (status = 0 \/ status = 1)
             /\ (status = 1 <-> exists msg, object = Obj_error msg)).
  { intros msg. do 2 eexists. split; [reflexivity|]. split; [auto|].
    split; eauto. }
  unfold main.
  destruct (len argv <? 2); [apply E|].
  destruct (arg argv 1 =? "check")%string.
  { do 2 eexists. split; [reflexivity|]. split; [auto|].
    split; [discriminate|]. intros (msg & [=]). }
  destruct HAS_BIP_UTILS; cbn [negb]; [|apply E].
  destruct (arg argv 1 =? "single")%string.
  { destruct (len argv =? 7); cbn [negb]; [apply P|apply E]. }
  destruct (arg argv 1 =? "multi")%string; [|apply E].
  destruct (len argv =? 8); cbn [negb]; [apply P|apply E].
Qed.

(** An address is printed only as the outcome of a derivation: with the
    library present, for [single] with seven or [multi] with eight
    arguments, after [int] (and [json.loads]) returned, and it is the
    address the derivation returned. *)
Theorem main_prints_only_derived_addresses
  (HAS_BIP_UTILS : bool) (argv : list string) (address : string) (status : Z) :
  main HAS_BIP_UTILS argv = ([Obj_address address], status) ->
  status = 0 /\ HAS_BIP_UTILS = true
  /\ ((arg argv 1 = "single" /\ len argv = 7
       /\ exists index,
           py_int (arg argv 3) = Return index
           /\ derive_single_sig_bip_utils (arg argv 2) index (arg argv 4)
                (str_lower (arg argv 5) =? "true")%string (arg argv 6)
              = Return address)
      \/ (arg argv 1 = "multi" /\ len argv = 8
          /\ exists xpubs threshold index,
              json_loads (arg argv 2) = Return xpubs
              /\ py_int (arg argv 3) = Return threshold
              /\ py_int (arg argv 4) = Return index
              /\ call_multisig xpubs threshold index (arg argv 5)
                   (str_lower (arg argv 6) =? "true")%string (arg argv 7)
                 = Return address)).
Proof.
  assert (P : forall r, print_result r = ([Obj_address address], status) ->
                        status = 0 /\ r = Return address).
  { intros [a|e]; cbn [print_result]; intros [= <- <-]; auto. }
  unfold main.
  destruct (len argv <? 2); [discriminate|].
  destruct (arg argv 1 =? "check")%string; [discriminate|].
  destruct HAS_BIP_UTILS; cbn [negb]; [|discriminate].
  destruct (String.eqb_spec (arg argv 1) "single") as [Hs|Hs].
  { destruct (Z.eqb_spec (len argv) 7) as [Hl|Hl]; cbn [negb]; [|discriminate].
    intros H. apply P in H. destruct H as [-> H]. bind_inv H.
    split; [reflexivity|]. split; [reflexivity|]. left. eauto 6. }
  destruct (String.eqb_spec (arg argv 1) "multi") as [Hm|Hm]; [|discriminate].
  destruct (Z.eqb_spec (len argv) 8) as [Hl|Hl]; cbn [negb]; [|discriminate].
  intros H. apply P in H. destruct H as [-> H].
  bind_inv H. bind_inv H. bind_inv H.
  split; [reflexivity|]. split; [reflexivity|]. right. eauto 10.
Qed.

(** The change flag of the [single] command (line 221) is set exactly for
    the sixteen spellings of [true] in upper and lower case; every other
    text, [1] and [yes] among them, means false. *)
Theorem main_change_flag (argv : list string) :
  arg argv 1 = "single" -> len argv = 7 ->
  exists change,
    (change = true <-> spells_true (arg argv 5))
    /\ main true argv
       = print_result
           (index <- py_int (arg argv 3) ;;
            derive_single_sig_bip_utils (arg argv 2) index (arg argv 4) change
              (arg argv 6)).
Proof.
  intros Hc Hl. exists (str_lower (arg argv 5) =? "true")%string. split.
  - rewrite String.eqb_eq. apply str_lower_true.
  - unfold main. rewrite Hc, Hl. reflexivity.
Qed.

End MainFacts.

(** Outside the two derivation commands with the right number of
    arguments, and always without the library, the output does not depend
    on [bip_utils], [int] or [json.loads]: none of them is called. *)
Theorem main_usage_paths_call_nothing
  (lib1 lib2 : BipUtils) (rt1 rt2 : PyRuntime) (HAS_BIP_UTILS : bool)
  (argv : list string) :
  ~ (HAS_BIP_UTILS = true
     /\ ((arg argv 1 = "single" /\ len argv = 7)
         \/ (arg argv 1 = "multi" /\ len argv = 8))) ->
  main (lib := lib1) (rt := rt1) HAS_BIP_UTILS argv
  = main (lib := lib2) (rt := rt2) HAS_BIP_UTILS argv.
Proof.
  intros H. unfold main.
  destruct (len argv <? 2); [reflexivity|].
  destruct (arg argv 1 =? "check")%string; [reflexivity|].
  destruct HAS_BIP_UTILS; cbn [negb]; [|reflexivity].
  destruct (String.eqb_spec (arg argv 1) "single") as [Hs|Hs].
  { destruct (Z.eqb_spec (len argv) 7) as [Hl|Hl]; cbn [negb]; [|reflexivity].
    exfalso. apply H. auto. }
  destruct (String.eqb_spec (arg argv 1) "multi") as [Hm|Hm]; [|reflexivity].
  destruct (Z.eqb_spec (len argv) 8) as [Hl|Hl]; cbn [negb]; [|reflexivity].
  exfalso. apply H. auto.
Qed.

Lemma main_prints_only_derived_addresses_witness :
  0 = 0 /\ true = true
  /\ ((arg MockRuntime.multi_argv 1 = "single"
       /\ len MockRuntime.multi_argv = 7
       /\ exists index,
           MockRuntime.int (arg MockRuntime.multi_argv 3) = Return index
           /\ derive_single_sig_bip_utils (lib := MockLib.lib)
                (arg MockRuntime.multi_argv 2) index
                (arg MockRuntime.multi_argv 4)
                (str_lower (arg MockRuntime.multi_argv 5) =? "true")%string
                (arg MockRuntime.multi_argv 6)
              = Return "bc1q0ddcac8f1d85156a3e66f65bbb0f822a949b9d127dcfb3a5948ab8277277e823")
      \/ (arg MockRuntime.multi_argv 1 = "multi"
          /\ len MockRuntime.multi_argv = 8
          /\ exists xpubs threshold index,
              MockRuntime.loads (arg MockRuntime.multi_argv 2) = Return xpubs
              /\ MockRuntime.int (arg MockRuntime.multi_argv 3)
                 = Return threshold
              /\ MockRuntime.int (arg MockRuntime.multi_argv 4) = Return index
              /\ call_multisig (lib := MockLib.lib) (rt := MockRuntime.rt)
                   xpubs threshold index (arg MockRuntime.multi_argv 5)
                   (str_lower (arg MockRuntime.multi_argv 6) =? "true")%string
                   (arg MockRuntime.multi_argv 7)
                 = Return "bc1q0ddcac8f1d85156a3e66f65bbb0f822a949b9d127dcfb3a5948ab8277277e823")).
Proof.
  apply (main_prints_only_derived_addresses (lib := MockLib.lib)
           (rt := MockRuntime.rt) true MockRuntime.multi_argv).
  vm_compute. reflexivity.
Defined.

Lemma main_change_flag_witness :
  exists change,
    (change = true <-> spells_true (arg MockRuntime.single_argv 5))
    /\ main (lib := MockLib.lib) (rt := MockRuntime.rt) true
         MockRuntime.single_argv
       = print_result
           (index <- MockRuntime.int (arg MockRuntime.single_argv 3) ;;
            derive_single_sig_bip_utils (lib := MockLib.lib)
              (arg MockRuntime.single_argv 2) index
              (arg MockRuntime.single_argv 4) change
              (arg MockRuntime.single_argv 6)).
Proof.
  apply (main_change_flag (lib := MockLib.lib) (rt := MockRuntime.rt)
           MockRuntime.single_argv); reflexivity.
Defined.

Lemma main_usage_paths_call_nothing_witness :
  main (lib := MockLib.lib) (rt := MockRuntime.rt) true
    ["python-verify.py"; "single"; MockLib.xpub_A; "0"]
  = main (lib := MockLib.lib) (rt := MockRuntime.refusing) true
      ["python-verify.py"; "single"; MockLib.xpub_A; "0"].
Proof.
  apply (main_usage_paths_call_nothing MockLib.lib MockLib.lib MockRuntime.rt
           MockRuntime.refusing true
           ["python-verify.py"; "single"; MockLib.xpub_A; "0"]).
  intros [_ [[_ H]|[H _]]]; vm_compute in H; discriminate.
Defined.
